(** * nginx_monitor.py: the ingress health monitor, embedded and verified

    The program polls the readiness of the ingress controller pods, counts
    consecutive unhealthy polls, restarts the deployment when the count reaches
    a threshold and fans alerts out to Slack, e-mail and PagerDuty.

    The embedding keeps the shape of the source: module-level settings are
    a [Config] record read from the process environment, every function of
    the script is a computation in a small monad that threads the local
    [failure_count] and the trace of observable actions and that can raise,
    and the answers of the outside world (the cluster API, the HTTP and SMTP
    endpoints, the clock) are read from an oracle record, one per loop
    iteration. *)

From stdpp Require Import base option list strings gmap.
From Stdlib Require Import ZArith Lia.

Local Open Scope string_scope.

(** ** Python values used by the script *)

(** Exceptions are identified with their text, [str(err)]. *)
Definition Exn : Type := string.

Inductive Result (A : Type) : Type :=
| Ok (a : A)
| Raise (err : Exn).
Arguments Ok {A} a.
Arguments Raise {A} err.

(** Truthiness of a value returned by [os.getenv]: [None] and the empty
    string are false. *)
Definition truthy_str (s : string) : bool :=
  match s with
  | EmptyString => false
  | String _ _ => true
  end.

Definition truthy_opt (v : option string) : bool :=
  match v with
  | None => false
  | Some s => truthy_str s
  end.

(** Truthiness of a list: non-empty. *)
Definition truthy_list {A} (l : list A) : bool :=
  match l with
  | [] => false
  | _ :: _ => true
  end.

(** ** Configuration (lines 12-21) *)

Record Config : Type := {
  NAMESPACE : string;
  DEPLOYMENT_NAME : string;
  SLACK_HOOK_URL : option string;
  PAGERDUTY_ROUTING_KEY : option string;
  EMAIL_FROM : option string;
  EMAIL_TO : option string;
  SMTP_HOST : string;
  CHECK_EVERY : Z;
  FAILURE_THRESHOLD : Z
}.

(** [os.getenv(key)] and [os.getenv(key, default)] over the environment. *)
Definition getenv (env : gmap string string) (key : string) : option string :=
  env !! key.

Definition getenv_default (env : gmap string string) (key default : string)
  : string :=
  match env !! key with
  | Some v => v
  | None => default
  end.

(** [int(os.getenv(key, d))] with an integer default [d]: the default needs
    no parsing; a value found in the environment is parsed by Python's
    [int], taken here as [py_int] ([None] when it raises [ValueError]). *)
Definition getenv_int (py_int : string → option Z) (env : gmap string string)
    (key : string) (d : Z) : Result Z :=
  match env !! key with
  | None => Ok d
  | Some v =>
      match py_int v with
      | Some n => Ok n
      | None => Raise "ValueError: invalid literal for int()"
      end
  end.

(** The module-level assignments, in order.  A failing [int] ends the
    import with the exception. *)
Definition load_config (py_int : string → option Z) (env : gmap string string)
  : Result Config :=
  match getenv_int py_int env "CHECK_INTERVAL" 60 with
  | Raise e => Raise e
  | Ok check_every =>
      match getenv_int py_int env "FAILURE_LIMIT" 3 with
      | Raise e => Raise e
      | Ok failure_threshold =>
          Ok {| NAMESPACE := getenv_default env "NGINX_NAMESPACE" "ingress-nginx";
                DEPLOYMENT_NAME :=
                  getenv_default env "NGINX_DEPLOYMENT" "ingress-nginx-controller";
                SLACK_HOOK_URL := getenv env "SLACK_HOOK_URL";
                PAGERDUTY_ROUTING_KEY := getenv env "PAGERDUTY_ROUTING_KEY";
                EMAIL_FROM := getenv env "EMAIL_FROM";
                EMAIL_TO := getenv env "EMAIL_TO";
                SMTP_HOST := getenv_default env "SMTP_HOST" "localhost";
                CHECK_EVERY := check_every;
                FAILURE_THRESHOLD := failure_threshold |}
      end
  end.

(** ** Cluster objects read by the inspector *)

Record ContainerStatus : Type := { ready : bool }.

(** [container_statuses] is [None] when the API reports no status. *)
Record PodStatus : Type := {
  container_statuses : option (list ContainerStatus)
}.

Record PodMetadata : Type := { name : string }.

Record Pod : Type := {
  metadata : PodMetadata;
  status : PodStatus
}.

Record PodList : Type := { items : list Pod }.

(** ** Observable actions *)

#[warnings="-register-all"]
Inductive Json : Type :=
| JStr (s : string)
| JObj (fields : list (string * Json)).

Record EmailMessage : Type := {
  msg_content : string;
  msg_subject : string;
  msg_from : option string;
  msg_to : option string
}.

Inductive LogLevel : Type := INFO | WARNING | ERROR.

(** A log message is a plain string, an f-string ending in an exception, or
    the one f-string of the loop that prints a list and a number. *)
Inductive LogMsg : Type :=
| Text (s : string)
| WithErr (prefix : string) (err : Exn)
| Detected (broken_pods : list string) (failure_count : Z).

Inductive Event : Type :=
| EvLog (level : LogLevel) (msg : LogMsg)
| EvPrint (s : string)
| EvListPods (namespace label_selector : string)
| EvPatchDeployment (dep_name namespace : string) (body : Json)
| EvHttpPost (url : string) (json : Json)
| EvSmtpSend (host : string) (msg : EmailMessage)
| EvLoadKubeConfig
| EvLoadInclusterConfig
| EvSleep (seconds : Z).

(** ** Machine state and the monad of the script *)

Record State : Type := {
  failure_count : Z;
  trace : list Event
}.

(** A computation reads the oracle [W], updates the state and returns or
    raises.  A raise keeps the state reached so far, as a Python exception
    keeps the assignments and the output made before it. *)
Definition M (W A : Type) : Type := W → State → Result A * State.

Global Instance M_ret {W} : MRet (M W) := λ A a _ s, (Ok a, s).

Global Instance M_bind {W} : MBind (M W) := λ A B f m w s,
  match m w s with
  | (Ok a, s') => f a w s'
  | (Raise e, s') => (Raise e, s')
  end.

Definition raise {W A} (e : Exn) : M W A := λ _ s, (Raise e, s).

(** [try: body  except Exception as err: handler err] *)
Definition try_except {W A} (body : M W A) (handler : Exn → M W A) : M W A :=
  λ w s,
  match body w s with
  | (Ok a, s') => (Ok a, s')
  | (Raise e, s') => handler e w s'
  end.

Definition emit {W} (e : Event) : M W () :=
  λ _ s, (Ok (), {| failure_count := failure_count s; trace := (trace s ++ [e])%list |}).

Definition ask {W} : M W W := λ w s, (Ok w, s).

Definition get_failure_count {W} : M W Z := λ _ s, (Ok (failure_count s), s).

Definition set_failure_count {W} (n : Z) : M W () :=
  λ _ s, (Ok (), {| failure_count := n; trace := trace s |}).

(** A call to the outside: the call is recorded, then it returns or raises
    as the oracle says. *)
Definition external {W} (e : Event) (outcome : W → option Exn) : M W () :=
  emit e ;;
  w ← ask;
  match outcome w with
  | None => mret ()
  | Some err => raise err
  end.

Definition logging_info {W} (m : LogMsg) : M W () := emit (EvLog INFO m).
Definition logging_warning {W} (m : LogMsg) : M W () := emit (EvLog WARNING m).
Definition logging_error {W} (m : LogMsg) : M W () := emit (EvLog ERROR m).
Definition print {W} (s : string) : M W () := emit (EvPrint s).

(** ** The oracle of one loop iteration *)

(** Every call that leaves the process is answered by the oracle: it
    returns or raises an [Exception].  What the script computes locally is
    taken not to raise: the [logging] calls, [print], the constructors
    [client.CoreV1Api()] and [client.AppsV1Api()] and [str(time.time())],
    whose text is the field [time_time]; [time.sleep] raises [ValueError]
    for a negative length and returns otherwise.  Each pod of a
    response carries its [metadata.name] and its [status]; only
    [container_statuses] may be missing.  Several steps of one delivery
    (building the message, connecting, sending) are one call with one
    outcome. *)

Record World : Type := {
  list_namespaced_pod_result : Result PodList;
  time_time : string;
  patch_namespaced_deployment_result : option Exn;
  slack_post_result : option Exn;
  smtp_result : option Exn;
  pagerduty_post_result : option Exn
}.

(** The oracle of the start-up code and of the whole run: the outcome of the
    two credential loaders and the iterations the loop gets to make. *)
Record Run : Type := {
  load_kube_config_result : option Exn;
  load_incluster_config_result : option Exn;
  polls : list World
}.

(** ** Notification functions (lines 33-82) *)

Section Script.

Variable cfg : Config.

Definition notify_slack (message : string) : M World () :=
  match SLACK_HOOK_URL cfg with
  | Some url =>
      if negb (truthy_str url) then
        logging_warning (Text "Slack URL not set, skipping Slack notification")
      else
        try_except
          (external (EvHttpPost url (JObj [("text", JStr message)]))
                    slack_post_result)
          (λ err, logging_error (WithErr "Slack error: " err))
  | None =>
      logging_warning (Text "Slack URL not set, skipping Slack notification")
  end.

(** [all([EMAIL_FROM, EMAIL_TO, SMTP_HOST])] *)
Definition email_config_complete : bool :=
  truthy_opt (EMAIL_FROM cfg) && truthy_opt (EMAIL_TO cfg)
  && truthy_str (SMTP_HOST cfg).

Definition notify_email (subject body : string) : M World () :=
  if negb email_config_complete then
    logging_warning (Text "Email config incomplete, skipping email")
  else
    try_except
      (let msg := {| msg_content := body;
                     msg_subject := subject;
                     msg_from := EMAIL_FROM cfg;
                     msg_to := EMAIL_TO cfg |} in
       external (EvSmtpSend (SMTP_HOST cfg) msg) smtp_result)
      (λ err, logging_error (WithErr "Email error: " err)).

Definition notify_pagerduty (message : string) : M World () :=
  match PAGERDUTY_ROUTING_KEY cfg with
  | Some key =>
      if negb (truthy_str key) then
        logging_warning (Text "PagerDuty key not set, skipping notification")
      else
        try_except
          (let payload :=
             JObj [("routing_key", JStr key);
                   ("event_action", JStr "trigger");
                   ("payload",
                    JObj [("summary", JStr message);
                          ("severity", JStr "critical");
                          ("source", JStr "nginx-ingress-monitor")])] in
           external (EvHttpPost "https://events.pagerduty.com/v2/enqueue" payload)
                    pagerduty_post_result)
          (λ err, logging_error (WithErr "PagerDuty error: " err))
  | None =>
      logging_warning (Text "PagerDuty key not set, skipping notification")
  end.

Definition notify_all_channels (message : string) : M World () :=
  logging_info (Text ("Alert: " ++ message)) ;;
  notify_slack message ;;
  notify_email "NGINX Health Alert" message ;;
  notify_pagerduty message.

(** ** Health check and recovery (lines 87-126) *)

(** [v1.list_namespaced_pod(namespace=..., label_selector=...)] *)
Definition list_namespaced_pod (namespace label_selector : string)
  : M World PodList :=
  emit (EvListPods namespace label_selector) ;;
  w ← ask;
  match list_namespaced_pod_result w with
  | Ok pods => mret pods
  | Raise err => raise err
  end.

(** The inner loop: one append of the pod's name per container that is not
    ready. *)
Definition scan_containers (pod : Pod) (problem_pods : list string)
    (cs : list ContainerStatus) : list string :=
  fold_left
    (λ (acc : list string) c,
       if negb (ready c) then (acc ++ [name (metadata pod)])%list else acc)
    cs problem_pods.

(** The body of the outer loop; [None] and the empty list are both false. *)
Definition scan_pod (problem_pods : list string) (pod : Pod) : list string :=
  match container_statuses (status pod) with
  | Some cs =>
      if truthy_list cs then scan_containers pod problem_pods cs
      else problem_pods
  | None => problem_pods
  end.

Definition scan_pods (pods : list Pod) : list string :=
  fold_left scan_pod pods [].

Definition get_unhealthy_pods : M World (list string) :=
  pods ← list_namespaced_pod (NAMESPACE cfg)
           "app.kubernetes.io/component=controller";
  mret (scan_pods (items pods)).

Definition restart_msg : string :=
  "[Self-Heal] Restarting deployment " ++ DEPLOYMENT_NAME cfg
  ++ " in namespace " ++ NAMESPACE cfg.

Definition restart_nginx_controller (dry_run : bool) : M World () :=
  let msg := restart_msg in
  logging_info (Text msg) ;;
  if dry_run then
    logging_info (Text "[Dry Run] Skipping actual restart")
  else
    w ← ask;
    let patch :=
      JObj [("spec",
             JObj [("template",
                    JObj [("metadata",
                           JObj [("annotations",
                                  JObj [("restarted-at",
                                         JStr (time_time w))])])])])] in
    try_except
      (external (EvPatchDeployment (DEPLOYMENT_NAME cfg) (NAMESPACE cfg) patch)
                patch_namespaced_deployment_result ;;
       notify_all_channels ("Remediation triggered: " ++ msg))
      (λ err, logging_error (WithErr "Failed to restart: " err)).

(** ** Monitor loop (lines 131-156) *)

(** [time.sleep(seconds)]: a negative length is refused with
    [ValueError] before any sleeping. *)
Definition time_sleep (seconds : Z) : M World () :=
  if bool_decide (seconds < 0)%Z
  then raise "ValueError: sleep length must be non-negative"
  else emit (EvSleep seconds).

(** One pass through the body of [while True]. *)
Definition loop_body (dry_run : bool) : M World () :=
  print "Next Lopp" ;;
  try_except
    (broken_pods ← get_unhealthy_pods;
     if truthy_list broken_pods then
       n ← get_failure_count;
       set_failure_count (n + 1) ;;
       n ← get_failure_count;
       logging_warning (Detected broken_pods n) ;;
       n ← get_failure_count;
       if bool_decide (FAILURE_THRESHOLD cfg ≤ n)%Z then
         restart_nginx_controller dry_run ;;
         set_failure_count 0
       else mret ()
     else
       logging_info (Text "All NGINX pods are healthy") ;;
       set_failure_count 0)
    (λ monitor_err, logging_error (WithErr "Monitoring error: " monitor_err)) ;;
  time_sleep (CHECK_EVERY cfg).

(** [while True] over the iterations the oracle provides: the loop has no
    exit of its own, so it ends only when an iteration raises. *)
Fixpoint while_true (body : M World ()) (ws : list World) (s : State)
  : Result () * State :=
  match ws with
  | [] => (Ok (), s)
  | w :: ws' =>
      match body w s with
      | (Ok _, s') => while_true body ws' s'
      | (Raise e, s') => (Raise e, s')
      end
  end.

Definition load_kube_config : M Run () :=
  external EvLoadKubeConfig load_kube_config_result.

Definition load_incluster_config : M Run () :=
  external EvLoadInclusterConfig load_incluster_config_result.

Definition monitor_loop (dry_run : bool) : M Run () :=
  λ r s, while_true (loop_body dry_run) (polls r) s.

Definition run_monitor (dry_run : bool) : M Run () :=
  try_except load_kube_config (λ _, load_incluster_config) ;;
  logging_info (Text "NGINX health monitor started") ;;
  set_failure_count 0 ;;
  monitor_loop dry_run.

End Script.

(** ** Reading a run *)

(** The events a computation added to the trace, from the states before
    and after it. *)
Definition emitted (s s' : State) : list Event :=
  drop (length (trace s)) (trace s').

(** The state with more events on its trace. *)
Definition extend (s : State) (t : list Event) : State :=
  {| failure_count := failure_count s; trace := (trace s ++ t)%list |}.

Definition state_of {A} (r : Result A * State) : State := r.2.

Definition returns_normally {A} (r : Result A * State) : bool :=
  match r.1 with
  | Ok _ => true
  | Raise _ => false
  end.

(** The state in which [run_monitor] enters its loop. *)
Definition loop_entry (t : list Event) : State :=
  {| failure_count := 0; trace := t |}.

(** The state after the iterations [ws] of the loop, each entered in the
    state the one before it left: the state at the top of the next
    iteration.  The loop makes all of [ws] unless a sleep raises, which
    ends it after that iteration. *)
Definition state_after (cfg : Config) (dry_run : bool) (ws : list World)
    (s : State) : State :=
  fold_left (λ s' w, state_of (loop_body cfg dry_run w s')) ws s.

(** What one poll observed, as the loop distinguishes it: the inspector
    raised, returned an empty list, or returned a non-empty one. *)
Inductive Outcome : Type := Healthy | Unhealthy | InspectionError.

Definition classify (w : World) : Outcome :=
  match list_namespaced_pod_result w with
  | Raise _ => InspectionError
  | Ok pods => if truthy_list (scan_pods (items pods)) then Unhealthy else Healthy
  end.

Definition is_restart_log (cfg : Config) (e : Event) : bool :=
  match e with
  | EvLog INFO (Text s) => String.eqb s (restart_msg cfg)
  | _ => false
  end.

Definition is_patch (e : Event) : bool :=
  match e with
  | EvPatchDeployment _ _ _ => true
  | _ => false
  end.

(** Deliveries to an external channel. *)
Definition is_notification (e : Event) : bool :=
  match e with
  | EvHttpPost _ _ => true
  | EvSmtpSend _ _ => true
  | _ => false
  end.

Definition is_smtp (e : Event) : bool :=
  match e with
  | EvSmtpSend _ _ => true
  | _ => false
  end.

(** Remediation was triggered: the remediator was entered. *)
Definition restart_invoked (cfg : Config) (t : list Event) : bool :=
  existsb (is_restart_log cfg) t.

Definition notifications (t : list Event) : list Event :=
  List.filter is_notification t.

Definition patches (t : list Event) : list Event :=
  List.filter is_patch t.

(** The events of one iteration and whether it remediated. *)
Definition iteration_events (cfg : Config) (dry_run : bool) (w : World)
    (s : State) : list Event :=
  emitted s (state_of (loop_body cfg dry_run w s)).

Definition remediated (cfg : Config) (dry_run : bool) (w : World) (s : State)
  : bool :=
  restart_invoked cfg (iteration_events cfg dry_run w s).

(** The record of a run: per iteration, the outcome of the poll and
    whether remediation was triggered. *)
Fixpoint history (cfg : Config) (dry_run : bool) (ws : list World) (s : State)
  : list (Outcome * bool) :=
  match ws with
  | [] => []
  | w :: ws' =>
      (classify w, remediated cfg dry_run w s)
        :: history cfg dry_run ws' (state_of (loop_body cfg dry_run w s))
  end.

(** ** The counter as the specification words it *)

(** The length of the current trailing run of unhealthy outcomes since
    the last healthy outcome or the last remediation, over a record given
    most recent iteration first; iterations whose inspection failed are
    passed over. *)
Fixpoint trailing_run (recent_first : list (Outcome * bool)) : Z :=
  match recent_first with
  | [] => 0
  | (InspectionError, _) :: older => trailing_run older
  | (Healthy, _) :: _ => 0
  | (Unhealthy, true) :: _ => 0
  | (Unhealthy, false) :: older => 1 + trailing_run older
  end.

(** The number of unhealthy outcomes since the last healthy one, most
    recent first, inspection failures passed over. *)
Fixpoint unhealthy_streak (recent_first : list Outcome) : Z :=
  match recent_first with
  | [] => 0
  | InspectionError :: older => unhealthy_streak older
  | Healthy :: _ => 0
  | Unhealthy :: older => 1 + unhealthy_streak older
  end.

Definition inspected (o : Outcome) : bool :=
  match o with
  | InspectionError => false
  | _ => true
  end.

(** The counter as a function of the outcome alone. *)
Definition next_count (threshold n : Z) (o : Outcome) : Z :=
  match o with
  | InspectionError => n
  | Healthy => 0
  | Unhealthy => if bool_decide (threshold ≤ n + 1)%Z then 0 else (n + 1)%Z
  end.

Definition triggers (threshold n : Z) (o : Outcome) : bool :=
  match o with
  | Unhealthy => bool_decide (threshold ≤ n + 1)%Z
  | _ => false
  end.

(** ** The trace of each function, in closed form *)

(** The three behaviours of a channel: skipped with a warning, attempted,
    attempted and failed with the error logged. *)
Definition channel_events (configured : bool) (skip : string) (attempt : Event)
    (prefix : string) (outcome : option Exn) : list Event :=
  if configured then
    attempt :: match outcome with
               | Some err => [EvLog ERROR (WithErr prefix err)]
               | None => []
               end
  else [EvLog WARNING (Text skip)].

Definition slack_events (url : option string) (message : string)
    (outcome : option Exn) : list Event :=
  channel_events (truthy_opt url)
    "Slack URL not set, skipping Slack notification"
    (EvHttpPost (default "" url) (JObj [("text", JStr message)]))
    "Slack error: " outcome.

Definition email_events (from to : option string) (host subject body : string)
    (outcome : option Exn) : list Event :=
  channel_events (truthy_opt from && truthy_opt to && truthy_str host)
    "Email config incomplete, skipping email"
    (EvSmtpSend host {| msg_content := body; msg_subject := subject;
                        msg_from := from; msg_to := to |})
    "Email error: " outcome.

Definition pagerduty_events (key : option string) (message : string)
    (outcome : option Exn) : list Event :=
  channel_events (truthy_opt key)
    "PagerDuty key not set, skipping notification"
    (EvHttpPost "https://events.pagerduty.com/v2/enqueue"
       (JObj [("routing_key", JStr (default "" key));
              ("event_action", JStr "trigger");
              ("payload",
               JObj [("summary", JStr message);
                     ("severity", JStr "critical");
                     ("source", JStr "nginx-ingress-monitor")])]))
    "PagerDuty error: " outcome.

Definition notify_events (cfg : Config) (message : string) (w : World)
  : list Event :=
  (EvLog INFO (Text ("Alert: " ++ message))
   :: slack_events (SLACK_HOOK_URL cfg) message (slack_post_result w)
   ++ email_events (EMAIL_FROM cfg) (EMAIL_TO cfg) (SMTP_HOST cfg)
        "NGINX Health Alert" message (smtp_result w)
   ++ pagerduty_events (PAGERDUTY_ROUTING_KEY cfg) message
        (pagerduty_post_result w))%list.

Definition patch_event (cfg : Config) (w : World) : Event :=
  EvPatchDeployment (DEPLOYMENT_NAME cfg) (NAMESPACE cfg)
    (JObj [("spec",
            JObj [("template",
                   JObj [("metadata",
                          JObj [("annotations",
                                 JObj [("restarted-at",
                                        JStr (time_time w))])])])])]).

Definition restart_events (cfg : Config) (dry_run : bool) (w : World)
  : list Event :=
  (EvLog INFO (Text (restart_msg cfg))
   :: if dry_run then [EvLog INFO (Text "[Dry Run] Skipping actual restart")]
      else patch_event cfg w
           :: match patch_namespaced_deployment_result w with
              | Some err => [EvLog ERROR (WithErr "Failed to restart: " err)]
              | None =>
                  notify_events cfg ("Remediation triggered: " ++ restart_msg cfg) w
              end)%list.

(** The last step of an iteration: the sleep, or the [ValueError] of a
    negative interval. *)
Definition sleep_events (cfg : Config) : list Event :=
  if bool_decide (CHECK_EVERY cfg < 0)%Z then []
  else [EvSleep (CHECK_EVERY cfg)].

Definition sleep_result (cfg : Config) : Result () :=
  if bool_decide (CHECK_EVERY cfg < 0)%Z
  then Raise "ValueError: sleep length must be non-negative"
  else Ok ().

Definition body_events (cfg : Config) (dry_run : bool) (w : World) (n : Z)
  : list Event :=
  ([EvPrint "Next Lopp";
    EvListPods (NAMESPACE cfg) "app.kubernetes.io/component=controller"]
   ++ match list_namespaced_pod_result w with
      | Raise err => [EvLog ERROR (WithErr "Monitoring error: " err)]
      | Ok pods =>
          match scan_pods (items pods) with
          | [] => [EvLog INFO (Text "All NGINX pods are healthy")]
          | broken_pods =>
              EvLog WARNING (Detected broken_pods (n + 1))
              :: if bool_decide (FAILURE_THRESHOLD cfg ≤ n + 1)%Z
                 then restart_events cfg dry_run w else []
          end
      end
   ++ sleep_events cfg)%list.

(** The record of a run computed from the outcomes alone, from a counter
    value [n]. *)
Fixpoint outcome_history (threshold : Z) (os : list Outcome) (n : Z)
  : list (Outcome * bool) :=
  match os with
  | [] => []
  | o :: os' =>
      (o, triggers threshold n o)
        :: outcome_history threshold os' (next_count threshold n o)
  end.

(** The counter after the outcomes [os], from a counter value [n]. *)
Definition count_after (threshold : Z) (os : list Outcome) (n : Z) : Z :=
  fold_left (next_count threshold) os n.

(** All the events of the iterations [ws], from a counter value [n]. *)
Fixpoint loop_events (cfg : Config) (dry_run : bool) (ws : list World) (n : Z)
  : list Event :=
  match ws with
  | [] => []
  | w :: ws' =>
      (body_events cfg dry_run w n
       ++ loop_events cfg dry_run ws'
            (next_count (FAILURE_THRESHOLD cfg) n (classify w)))%list
  end.

(** ** Sample inputs *)

(** The settings of a process started with an empty environment. *)
Definition default_cfg : Config :=
  {| NAMESPACE := "ingress-nginx";
     DEPLOYMENT_NAME := "ingress-nginx-controller";
     SLACK_HOOK_URL := None;
     PAGERDUTY_ROUTING_KEY := None;
     EMAIL_FROM := None;
     EMAIL_TO := None;
     SMTP_HOST := "localhost";
     CHECK_EVERY := 60;
     FAILURE_THRESHOLD := 3 |}.

(** Every channel configured, remediation at the first unhealthy poll. *)
Definition alerting_cfg : Config :=
  {| NAMESPACE := "ingress-nginx";
     DEPLOYMENT_NAME := "ingress-nginx-controller";
     SLACK_HOOK_URL := Some "https://hooks.slack.example/T0/B0";
     PAGERDUTY_ROUTING_KEY := Some "R0UT1NGKEY";
     EMAIL_FROM := Some "monitor@example.org";
     EMAIL_TO := Some "oncall@example.org";
     SMTP_HOST := "localhost";
     CHECK_EVERY := 60;
     FAILURE_THRESHOLD := 1 |}.

Definition pod (n : string) (cs : option (list ContainerStatus)) : Pod :=
  {| metadata := {| name := n |}; status := {| container_statuses := cs |} |}.

Definition ready_pod : Pod := pod "controller-a" (Some [{| ready := true |}]).
Definition broken_pod : Pod := pod "controller-b" (Some [{| ready := false |}]).

(** A poll in which every call to the outside succeeds. *)
Definition poll (r : Result PodList) : World :=
  {| list_namespaced_pod_result := r;
     time_time := "1700000000.0";
     patch_namespaced_deployment_result := None;
     slack_post_result := None;
     smtp_result := None;
     pagerduty_post_result := None |}.

Definition healthy_poll : World := poll (Ok {| items := [ready_pod] |}).
Definition unhealthy_poll : World :=
  poll (Ok {| items := [ready_pod; broken_pod] |}).
Definition failed_poll : World := poll (Raise "ApiException: (503)").

(** An unhealthy poll in which the patch and every delivery fail. *)
Definition unlucky_poll : World :=
  {| list_namespaced_pod_result := Ok {| items := [broken_pod] |};
     time_time := "1700000060.0";
     patch_namespaced_deployment_result := Some "ApiException: (500)";
     slack_post_result := Some "ConnectionError";
     smtp_result := Some "ConnectionRefusedError";
     pagerduty_post_result := Some "ConnectionError" |}.

(** ** Claims as the specification words them, where the code differs *)

(** A dry run counts as a successful remediation for notification: it
    notifies as a run whose patch succeeds does. *)
Definition dry_run_notifies_as_success (cfg : Config) (w : World) (s : State)
  : Prop :=
  patch_namespaced_deployment_result w = None →
  notifications (emitted s (state_of (restart_nginx_controller cfg true w s)))
  = notifications (emitted s (state_of (restart_nginx_controller cfg false w s))).

(** The e-mail channel delivers only when the sender, the recipient and
    the mail relay host are all present in the environment. *)
Definition email_needs_all_three (env : gmap string string) : Prop :=
  ∀ py_int cfg subject body w s,
    load_config py_int env = Ok cfg →
    existsb is_smtp (emitted s (state_of (notify_email cfg subject body w s)))
    = true →
    is_Some (env !! "EMAIL_FROM") ∧ is_Some (env !! "EMAIL_TO")
    ∧ is_Some (env !! "SMTP_HOST").

(** An environment with a sender and a recipient and no [SMTP_HOST]. *)
Definition env_without_relay : gmap string string :=
  <["EMAIL_FROM" := "monitor@example.org"]>
    (<["EMAIL_TO" := "oncall@example.org"]> ∅).

(** The settings loaded from it. *)
Definition mail_cfg : Config :=
  {| NAMESPACE := "ingress-nginx";
     DEPLOYMENT_NAME := "ingress-nginx-controller";
     SLACK_HOOK_URL := None;
     PAGERDUTY_ROUTING_KEY := None;
     EMAIL_FROM := Some "monitor@example.org";
     EMAIL_TO := Some "oncall@example.org";
     SMTP_HOST := "localhost";
     CHECK_EVERY := 60;
     FAILURE_THRESHOLD := 3 |}.

(** A pod is unhealthy when it has at least one container whose reported
    readiness is false; a pod without container statuses is healthy. *)
Definition unready (c : ContainerStatus) : bool := negb (ready c).

Definition pod_unhealthy (p : Pod) : bool :=
  match container_statuses (status p) with
  | Some cs => existsb unready cs
  | None => false
  end.

(** The ordered subset of the names of the unhealthy pods. *)
Definition unhealthy_pod_names (pods : list Pod) : list string :=
  map (λ p, name (metadata p)) (List.filter pod_unhealthy pods).

(** The number of containers of a pod that are not ready. *)
Definition unready_count (p : Pod) : nat :=
  match container_statuses (status p) with
  | Some cs => length (List.filter unready cs)
  | None => 0
  end.

(** The inspector returns the ordered subset of unhealthy pod names. *)
Definition returns_unhealthy_subset : Prop :=
  ∀ cfg w s pods,
    list_namespaced_pod_result w = Ok pods →
    (get_unhealthy_pods cfg w s).1 = Ok (unhealthy_pod_names (items pods)).

(** A pod with two containers that are not ready, and one without
    container statuses. *)
Definition crashed_pod : Pod :=
  pod "controller-c" (Some [{| ready := false |}; {| ready := false |}]).

Definition pending_pod : Pod := pod "controller-d" None.


(** ** Counting what a run did *)




(** The number of iterations of a record that remediated. *)
Definition remediations (h : list (Outcome * bool)) : nat :=
  length (List.filter snd h).

Definition is_unhealthy (o : Outcome) : bool :=
  match o with
  | Unhealthy => true
  | _ => false
  end.

Definition is_healthy (o : Outcome) : bool :=
  match o with
  | Healthy => true
  | _ => false
  end.

Definition unhealthy_polls (os : list Outcome) : nat :=
  length (List.filter is_unhealthy os).

(** The numbers printed as [failure #n] by the warnings of a trace. *)
Definition detected_counts (t : list Event) : list Z :=
  flat_map (λ e, match e with
                 | EvLog WARNING (Detected _ n) => [n]
                 | _ => []
                 end) t.

Definition bool_to_nat (b : bool) : nat := if b then 1 else 0.

(** The number of channels whose settings let them deliver. *)
Definition configured_channels (cfg : Config) : nat :=
  bool_to_nat (truthy_opt (SLACK_HOOK_URL cfg))
  + bool_to_nat (email_config_complete cfg)
  + bool_to_nat (truthy_opt (PAGERDUTY_ROUTING_KEY cfg)).

(** The environment variables the script reads. *)
Definition script_variables : list string :=
  ["NGINX_NAMESPACE"; "NGINX_DEPLOYMENT"; "SLACK_HOOK_URL";
   "PAGERDUTY_ROUTING_KEY"; "EMAIL_FROM"; "EMAIL_TO"; "SMTP_HOST";
   "CHECK_INTERVAL"; "FAILURE_LIMIT"].

(** A variable holds an integer as far as [int] is concerned, or is not
    set. *)
Definition parses (py_int : string → option Z) (env : gmap string string)
    (key : string) : bool :=
  match env !! key with
  | None => true
  | Some v => bool_decide (is_Some (py_int v))
  end.

(** A setting that is the empty string, read as not set. *)
Definition blank_to_unset (v : option string) : option string :=
  if truthy_opt v then v else None.

Definition unset_blank_channels (cfg : Config) : Config :=
  {| NAMESPACE := NAMESPACE cfg;
     DEPLOYMENT_NAME := DEPLOYMENT_NAME cfg;
     SLACK_HOOK_URL := blank_to_unset (SLACK_HOOK_URL cfg);
     PAGERDUTY_ROUTING_KEY := blank_to_unset (PAGERDUTY_ROUTING_KEY cfg);
     EMAIL_FROM := blank_to_unset (EMAIL_FROM cfg);
     EMAIL_TO := blank_to_unset (EMAIL_TO cfg);
     SMTP_HOST := SMTP_HOST cfg;
     CHECK_EVERY := CHECK_EVERY cfg;
     FAILURE_THRESHOLD := FAILURE_THRESHOLD cfg |}.




Definition is_ok {A} (r : Result A) : bool :=
  match r with
  | Ok _ => true
  | Raise _ => false
  end.

Definition is_error_log (e : Event) : bool :=
  match e with
  | EvLog ERROR _ => true
  | _ => false
  end.

(** A poll in which no call to the outside raises. *)
Definition calm (w : World) : bool :=
  is_ok (list_namespaced_pod_result w)
  && bool_decide (patch_namespaced_deployment_result w = None)
  && bool_decide (slack_post_result w = None)
  && bool_decide (smtp_result w = None)
  && bool_decide (pagerduty_post_result w = None).

(** The three deliveries of the remediation alert. *)
Definition remediation_alert (cfg : Config) (e : Event) : Prop :=
  let message := "Remediation triggered: " ++ restart_msg cfg in
  (∃ url, SLACK_HOOK_URL cfg = Some url
          ∧ e = EvHttpPost url (JObj [("text", JStr message)]))
  ∨ e = EvSmtpSend (SMTP_HOST cfg)
          {| msg_content := message;
             msg_subject := "NGINX Health Alert";
             msg_from := EMAIL_FROM cfg;
             msg_to := EMAIL_TO cfg |}
  ∨ (∃ key, PAGERDUTY_ROUTING_KEY cfg = Some key
            ∧ e = EvHttpPost "https://events.pagerduty.com/v2/enqueue"
                    (JObj [("routing_key", JStr key);
                           ("event_action", JStr "trigger");
                           ("payload",
                            JObj [("summary", JStr message);
                                  ("severity", JStr "critical");
                                  ("source", JStr "nginx-ingress-monitor")])])).


(** * Verification *)

(** ** The trace of each function *)

Ltac run_monad :=
  unfold try_except, external, logging_info, logging_warning, logging_error,
    print, time_sleep, emit, ask, raise, get_failure_count, set_failure_count,
    mbind, M_bind, mret, M_ret in *;
  cbn [fst snd failure_count trace] in *.

Ltac flatten_trace :=
  repeat rewrite <- app_assoc; cbn [app].

(** The two cases of the sleep at the end of an iteration. *)
Ltac case_sleep :=
  unfold sleep_events, sleep_result in *;
  match goal with
  | |- context [bool_decide (CHECK_EVERY ?cfg < 0)%Z] =>
      destruct (bool_decide (CHECK_EVERY cfg < 0)%Z)
  end.

Lemma emitted_extend s n t :
  emitted s {| failure_count := n; trace := (trace s ++ t)%list |} = t.
Proof. unfold emitted. cbn. apply drop_app_length. Qed.

Lemma notify_slack_run cfg message w s :
  notify_slack cfg message w s
  = (Ok (), extend s (slack_events (SLACK_HOOK_URL cfg) message
                        (slack_post_result w))).
Proof.
  unfold notify_slack, slack_events, channel_events, extend.
  destruct (SLACK_HOOK_URL cfg) as [[|c url]|]; cbn; try reflexivity.
  run_monad. destruct (slack_post_result w); cbn; flatten_trace; reflexivity.
Qed.

Lemma notify_email_run cfg subject body w s :
  notify_email cfg subject body w s
  = (Ok (), extend s (email_events (EMAIL_FROM cfg) (EMAIL_TO cfg)
                        (SMTP_HOST cfg) subject body (smtp_result w))).
Proof.
  unfold notify_email, email_events, channel_events, email_config_complete,
    extend.
  destruct (truthy_opt (EMAIL_FROM cfg) && truthy_opt (EMAIL_TO cfg)
            && truthy_str (SMTP_HOST cfg)); cbn; try reflexivity.
  run_monad. destruct (smtp_result w); cbn; flatten_trace; reflexivity.
Qed.

Lemma notify_pagerduty_run cfg message w s :
  notify_pagerduty cfg message w s
  = (Ok (), extend s (pagerduty_events (PAGERDUTY_ROUTING_KEY cfg) message
                        (pagerduty_post_result w))).
Proof.
  unfold notify_pagerduty, pagerduty_events, channel_events, extend.
  destruct (PAGERDUTY_ROUTING_KEY cfg) as [[|c key]|]; cbn; try reflexivity.
  run_monad. destruct (pagerduty_post_result w); cbn; flatten_trace;
    reflexivity.
Qed.

Lemma notify_all_channels_run cfg message w s :
  notify_all_channels cfg message w s
  = (Ok (), extend s (notify_events cfg message w)).
Proof.
  unfold notify_all_channels, notify_events.
  unfold mbind, M_bind, logging_info, emit.
  rewrite notify_slack_run, notify_email_run, notify_pagerduty_run.
  unfold extend. cbn. flatten_trace. reflexivity.
Qed.

Lemma restart_nginx_controller_run cfg dry_run w s :
  restart_nginx_controller cfg dry_run w s
  = (Ok (), extend s (restart_events cfg dry_run w)).
Proof.
  unfold restart_nginx_controller, restart_events, patch_event.
  destruct dry_run.
  - run_monad. unfold extend. cbn. flatten_trace. reflexivity.
  - unfold try_except, external, logging_info, emit, ask, raise, mbind, M_bind,
      mret, M_ret.
    destruct (patch_namespaced_deployment_result w) as [err|].
    + unfold logging_error, emit, extend. cbn. flatten_trace. reflexivity.
    + cbn. rewrite notify_all_channels_run. unfold extend. cbn.
      flatten_trace. reflexivity.
Qed.

Lemma get_unhealthy_pods_run cfg w s :
  get_unhealthy_pods cfg w s
  = (match list_namespaced_pod_result w with
     | Ok pods => Ok (scan_pods (items pods))
     | Raise err => Raise err
     end,
     extend s [EvListPods (NAMESPACE cfg)
                 "app.kubernetes.io/component=controller"]).
Proof.
  unfold get_unhealthy_pods, list_namespaced_pod. run_monad.
  destruct (list_namespaced_pod_result w); reflexivity.
Qed.

Lemma classify_scan w pods :
  list_namespaced_pod_result w = Ok pods →
  classify w = if truthy_list (scan_pods (items pods)) then Unhealthy
               else Healthy.
Proof. intros H. unfold classify. rewrite H. reflexivity. Qed.

(** One iteration raises only at its sleep; its effect on the counter is
    [next_count] of the outcome and its events are [body_events]. *)
Lemma loop_body_run cfg dry_run w s :
  loop_body cfg dry_run w s
  = (sleep_result cfg,
     {| failure_count :=
          next_count (FAILURE_THRESHOLD cfg) (failure_count s) (classify w);
        trace := (trace s ++ body_events cfg dry_run w (failure_count s))%list |}).
Proof.
  unfold loop_body, body_events, classify, sleep_events, sleep_result,
    time_sleep.
  unfold try_except at 1. unfold mbind at 1 2. unfold M_bind at 1 2.
  unfold print at 1. unfold emit at 1.
  unfold mbind at 1. unfold M_bind at 1.
  rewrite get_unhealthy_pods_run.
  destruct (list_namespaced_pod_result w) as [pods|err].
  - destruct (scan_pods (items pods)) as [|p broken] eqn:Hscan.
    + run_monad. unfold extend.
      destruct (bool_decide (CHECK_EVERY cfg < 0)%Z); cbn; flatten_trace;
        rewrite ?app_nil_r; reflexivity.
    + cbn [truthy_list next_count].
      unfold get_failure_count, set_failure_count, logging_warning, emit,
        mbind, M_bind. cbn [failure_count trace extend].
      destruct (bool_decide (FAILURE_THRESHOLD cfg ≤ failure_count s + 1)%Z).
      * rewrite restart_nginx_controller_run.
        unfold raise, extend.
        destruct (bool_decide (CHECK_EVERY cfg < 0)%Z); cbn; flatten_trace;
          rewrite ?app_nil_r; reflexivity.
      * unfold raise, mret, M_ret.
        destruct (bool_decide (CHECK_EVERY cfg < 0)%Z); cbn; flatten_trace;
          rewrite ?app_nil_r; reflexivity.
  - run_monad. unfold extend.
    destruct (bool_decide (CHECK_EVERY cfg < 0)%Z); cbn; flatten_trace;
      rewrite ?app_nil_r; reflexivity.
Qed.

Lemma sleep_result_nonneg cfg :
  (0 ≤ CHECK_EVERY cfg)%Z → sleep_result cfg = Ok ().
Proof.
  intros H. unfold sleep_result. rewrite bool_decide_eq_false_2 by lia.
  reflexivity.
Qed.



Lemma sleep_events_filter f :
  (∀ seconds, f (EvSleep seconds) = false) →
  ∀ cfg, List.filter f (sleep_events cfg) = [].
Proof.
  intros Hf cfg. unfold sleep_events.
  destruct (bool_decide (CHECK_EVERY cfg < 0)%Z); cbn; rewrite ?Hf;
    reflexivity.
Qed.

(** ** The loop *)

Lemma state_after_run cfg dry_run ws s :
  state_after cfg dry_run ws s
  = {| failure_count :=
         count_after (FAILURE_THRESHOLD cfg) (map classify ws) (failure_count s);
       trace := (trace s ++ loop_events cfg dry_run ws (failure_count s))%list |}.
Proof.
  unfold state_after, count_after. revert s.
  induction ws as [|w ws IH]; intros s.
  - cbn. rewrite app_nil_r. destruct s; reflexivity.
  - cbn [fold_left map loop_events]. rewrite IH, loop_body_run.
    cbn [state_of snd failure_count trace]. rewrite <- app_assoc.
    reflexivity.
Qed.

Lemma state_after_cons cfg dry_run w ws s :
  state_after cfg dry_run (w :: ws) s
  = state_after cfg dry_run ws (state_of (loop_body cfg dry_run w s)).
Proof. reflexivity. Qed.

(** With an interval that is not negative the loop makes every iteration
    it is offered and does not raise. *)
Lemma while_true_run cfg dry_run ws s :
  (0 ≤ CHECK_EVERY cfg)%Z →
  while_true (loop_body cfg dry_run) ws s
  = (Ok (), state_after cfg dry_run ws s).
Proof.
  intros Hpos. revert s. induction ws as [|w ws IH]; intros s; [reflexivity|].
  cbn [while_true]. rewrite state_after_cons, <- IH, loop_body_run.
  rewrite sleep_result_nonneg by exact Hpos. reflexivity.
Qed.


Lemma state_after_count cfg dry_run ws s :
  failure_count (state_after cfg dry_run ws s)
  = count_after (FAILURE_THRESHOLD cfg) (map classify ws) (failure_count s).
Proof. rewrite state_after_run. reflexivity. Qed.

Lemma state_after_events cfg dry_run ws s :
  emitted s (state_after cfg dry_run ws s)
  = loop_events cfg dry_run ws (failure_count s).
Proof. rewrite state_after_run. apply emitted_extend. Qed.

Lemma count_after_snoc threshold os o n :
  count_after threshold (os ++ [o]) n
  = next_count threshold (count_after threshold os n) o.
Proof. unfold count_after. rewrite fold_left_app. reflexivity. Qed.

Lemma iteration_events_body cfg dry_run w s :
  iteration_events cfg dry_run w s = body_events cfg dry_run w (failure_count s).
Proof.
  unfold iteration_events. rewrite loop_body_run. apply emitted_extend.
Qed.

Lemma restart_log_is_restart_log cfg :
  is_restart_log cfg (EvLog INFO (Text (restart_msg cfg))) = true.
Proof. cbn. apply String.eqb_refl. Qed.

Lemma restart_invoked_body cfg dry_run w n :
  restart_invoked cfg (body_events cfg dry_run w n)
  = triggers (FAILURE_THRESHOLD cfg) n (classify w).
Proof.
  unfold restart_invoked, body_events, classify.
  rewrite !existsb_app.
  assert (existsb (is_restart_log cfg) (sleep_events cfg) = false) as ->.
  { unfold sleep_events. destruct (bool_decide (CHECK_EVERY cfg < 0)%Z);
      reflexivity. }
  destruct (list_namespaced_pod_result w) as [pods|err]; [|reflexivity].
  destruct (scan_pods (items pods)) as [|p broken]; [reflexivity|].
  cbn [truthy_list triggers]. case_bool_decide; [|reflexivity].
  unfold restart_events. cbn [existsb app].
  rewrite restart_log_is_restart_log. reflexivity.
Qed.

Lemma remediated_triggers cfg dry_run w s :
  remediated cfg dry_run w s
  = triggers (FAILURE_THRESHOLD cfg) (failure_count s) (classify w).
Proof.
  unfold remediated. rewrite iteration_events_body. apply restart_invoked_body.
Qed.

Lemma history_outcomes cfg dry_run ws s :
  history cfg dry_run ws s
  = outcome_history (FAILURE_THRESHOLD cfg) (map classify ws) (failure_count s).
Proof.
  revert s. induction ws as [|w ws IH]; intros s; [reflexivity|].
  cbn [history map outcome_history].
  rewrite remediated_triggers, IH, loop_body_run. reflexivity.
Qed.

Lemma outcome_history_snoc threshold os o n :
  outcome_history threshold (os ++ [o]) n
  = (outcome_history threshold os n
     ++ [(o, triggers threshold (count_after threshold os n) o)])%list.
Proof.
  revert n. induction os as [|o' os IH]; intros n; [reflexivity|].
  cbn [app outcome_history]. rewrite IH. reflexivity.
Qed.

Lemma outcome_history_take threshold os n k :
  outcome_history threshold (take k os) n
  = take k (outcome_history threshold os n).
Proof.
  revert n k. induction os as [|o os IH]; intros n [|k]; try reflexivity.
  cbn. rewrite IH. reflexivity.
Qed.

Lemma trailing_run_outcomes threshold os :
  count_after threshold os 0
  = trailing_run (rev (outcome_history threshold os 0)).
Proof.
  induction os as [|o os IH] using rev_ind; [reflexivity|].
  rewrite count_after_snoc, outcome_history_snoc, rev_app_distr.
  cbn [rev app trailing_run]. rewrite <- IH.
  destruct o; cbn [next_count triggers]; try reflexivity.
  case_bool_decide; [reflexivity | lia].
Qed.

Lemma history_take cfg dry_run ws s k :
  history cfg dry_run (take k ws) s = take k (history cfg dry_run ws s).
Proof.
  rewrite !history_outcomes, <- firstn_map. apply outcome_history_take.
Qed.

Lemma next_count_bounds threshold n o :
  (0 < threshold)%Z → (0 ≤ n < threshold)%Z →
  (0 ≤ next_count threshold n o < threshold)%Z.
Proof.
  intros Hpos Hn. destruct o; cbn [next_count]; try lia.
  case_bool_decide; lia.
Qed.

Lemma count_after_bounds threshold os :
  (0 < threshold)%Z → (0 ≤ count_after threshold os 0 < threshold)%Z.
Proof.
  intros Hpos. induction os as [|o os IH] using rev_ind.
  - cbn. lia.
  - rewrite count_after_snoc. apply next_count_bounds; assumption.
Qed.

(** The counter never exceeds the number of unhealthy outcomes since the
    last healthy one. *)
Lemma count_after_streak threshold os :
  (0 ≤ count_after threshold os 0 ≤ unhealthy_streak (rev os))%Z.
Proof.
  induction os as [|o os IH] using rev_ind.
  - cbn. lia.
  - rewrite count_after_snoc, rev_app_distr. cbn [rev app unhealthy_streak].
    destruct o; cbn [next_count]; try lia.
    case_bool_decide; lia.
Qed.

Lemma streak_run (recent_first : list Outcome) (n : nat) :
  (Z.of_nat n ≤ unhealthy_streak recent_first)%Z →
  ∃ older,
    List.filter inspected recent_first = (repeat Unhealthy n ++ older)%list.
Proof.
  revert n. induction recent_first as [|o l IH]; intros n Hn.
  - cbn in Hn. assert (n = 0%nat) as -> by lia. exists []. reflexivity.
  - destruct o; cbn [unhealthy_streak List.filter inspected] in *.
    + assert (n = 0%nat) as -> by lia. eexists. reflexivity.
    + destruct n as [|m]; [eexists; reflexivity|].
      destruct (IH m) as [older Holder]; [lia|].
      exists older. rewrite Holder. reflexivity.
    + apply IH, Hn.
Qed.

Lemma triggers_true threshold n o :
  triggers threshold n o = true ↔ o = Unhealthy ∧ (threshold ≤ n + 1)%Z.
Proof.
  destruct o; cbn [triggers]; rewrite ?bool_decide_eq_true; split;
    try (intros [? ?]); try discriminate; auto.
Qed.

(** Patches and deliveries occur only inside the remediator. *)
Lemma channel_events_log configured skip attempt prefix outcome f :
  f attempt = false →
  (∀ l m, f (EvLog l m) = false) →
  List.filter f (channel_events configured skip attempt prefix outcome) = [].
Proof.
  intros Ha Hl. unfold channel_events.
  destruct configured, outcome; cbn; rewrite ?Ha, ?Hl; reflexivity.
Qed.

Lemma patches_notify_events cfg message w :
  patches (notify_events cfg message w) = [].
Proof.
  unfold patches, notify_events, slack_events, email_events, pagerduty_events.
  cbn [List.filter is_patch]. rewrite !List.filter_app.
  rewrite !channel_events_log by (intros; reflexivity). reflexivity.
Qed.

Lemma body_events_quiet cfg dry_run w n :
  triggers (FAILURE_THRESHOLD cfg) n (classify w) = false →
  patches (body_events cfg dry_run w n) = []
  ∧ notifications (body_events cfg dry_run w n) = [].
Proof.
  unfold patches, notifications, body_events, classify, triggers.
  case_sleep;
    (destruct (list_namespaced_pod_result w) as [pods|err];
     [|split; reflexivity]);
    (destruct (scan_pods (items pods)) as [|p broken]; [split; reflexivity|]);
    cbn [truthy_list]; intros ->; split; reflexivity.
Qed.

(** The deliveries of an iteration are those of the alert that follows a
    patch call that returned. *)
Lemma notifications_body cfg dry_run w n :
  notifications (body_events cfg dry_run w n)
  = if triggers (FAILURE_THRESHOLD cfg) n (classify w) && negb dry_run
    then match patch_namespaced_deployment_result w with
         | Some _ => []
         | None =>
             notifications
               (notify_events cfg
                  ("Remediation triggered: " ++ restart_msg cfg) w)
         end
    else [].
Proof.
  destruct (triggers (FAILURE_THRESHOLD cfg) n (classify w)) eqn:Htrig.
  2:{ apply body_events_quiet, Htrig. }
  apply triggers_true in Htrig as [Hw Hge].
  unfold notifications, body_events, classify in *.
  rewrite !List.filter_app, sleep_events_filter by reflexivity.
  destruct (list_namespaced_pod_result w) as [pods|err]; [|discriminate].
  destruct (scan_pods (items pods)) as [|p broken]; [discriminate|].
  rewrite bool_decide_eq_true_2 by exact Hge.
  unfold restart_events. destruct dry_run; [reflexivity|].
  destruct (patch_namespaced_deployment_result w); [reflexivity|].
  cbn [app List.filter is_notification patch_event negb andb].
  rewrite app_nil_r. reflexivity.
Qed.

Lemma loop_events_quiet cfg dry_run ws n :
  existsb snd (outcome_history (FAILURE_THRESHOLD cfg) (map classify ws) n)
  = false →
  restart_invoked cfg (loop_events cfg dry_run ws n) = false
  ∧ patches (loop_events cfg dry_run ws n) = []
  ∧ notifications (loop_events cfg dry_run ws n) = [].
Proof.
  revert n. induction ws as [|w ws IH]; intros n H; [repeat split|].
  cbn [map outcome_history existsb snd] in H.
  apply orb_false_iff in H as [Hw Hws].
  destruct (IH _ Hws) as (IHr & IHp & IHn).
  destruct (body_events_quiet cfg dry_run w n Hw) as [Hp Hn].
  cbn [loop_events]. unfold restart_invoked, patches, notifications in *.
  rewrite existsb_app, !List.filter_app, IHr, IHp, IHn, Hp, Hn.
  fold (restart_invoked cfg (body_events cfg dry_run w n)).
  rewrite restart_invoked_body, Hw. repeat split.
Qed.

(** [run_monitor] ends at start-up when both credential loaders raise;
    otherwise it enters the loop with the counter at zero. *)
Lemma run_monitor_run cfg dry_run r s :
  run_monitor cfg dry_run r s
  = match load_kube_config_result r, load_incluster_config_result r with
    | None, _ =>
        while_true (loop_body cfg dry_run) (polls r)
          (loop_entry
             (trace s ++ [EvLoadKubeConfig;
                          EvLog INFO (Text "NGINX health monitor started")]))
    | Some _, None =>
        while_true (loop_body cfg dry_run) (polls r)
          (loop_entry
             (trace s ++ [EvLoadKubeConfig; EvLoadInclusterConfig;
                          EvLog INFO (Text "NGINX health monitor started")]))
    | Some _, Some err =>
        (Raise err, extend s [EvLoadKubeConfig; EvLoadInclusterConfig])
    end.
Proof.
  unfold run_monitor, monitor_loop, load_kube_config, load_incluster_config,
    loop_entry, extend.
  run_monad.
  destruct (load_kube_config_result r) as [e1|];
    [destruct (load_incluster_config_result r) as [e2|]|];
    cbn; flatten_trace; reflexivity.
Qed.

Lemma run_monitor_never_raises_in_loop cfg dry_run r s :
  (0 ≤ CHECK_EVERY cfg)%Z →
  returns_normally (run_monitor cfg dry_run r s)
  = match load_kube_config_result r, load_incluster_config_result r with
    | Some _, Some _ => false
    | _, _ => true
    end.
Proof.
  intros Hpos. rewrite run_monitor_run.
  destruct (load_kube_config_result r), (load_incluster_config_result r);
    rewrite ?(while_true_run _ _ _ _ Hpos); reflexivity.
Qed.

(** Threshold 3 and three unhealthy polls: remediation fires once, in the
    third iteration, and the counter is 0 afterwards. *)
Example three_unhealthy_polls :
  map snd (history default_cfg false
             [unhealthy_poll; unhealthy_poll; unhealthy_poll] (loop_entry []))
  = [false; false; true]
  ∧ map (λ k, failure_count
                (state_after default_cfg false
                   (take k [unhealthy_poll; unhealthy_poll; unhealthy_poll])
                   (loop_entry [])))
      [0; 1; 2; 3]%nat
    = [0; 1; 2; 0]%Z.
Proof. split; reflexivity. Qed.

(** The events of a dry-run remediation at threshold 1. *)
Example dry_run_iteration :
  iteration_events alerting_cfg true unhealthy_poll (loop_entry [])
  = [EvPrint "Next Lopp";
     EvListPods "ingress-nginx" "app.kubernetes.io/component=controller";
     EvLog WARNING (Detected ["controller-b"] 1);
     EvLog INFO
       (Text "[Self-Heal] Restarting deployment ingress-nginx-controller in namespace ingress-nginx");
     EvLog INFO (Text "[Dry Run] Skipping actual restart");
     EvSleep 60].
Proof. reflexivity. Qed.

(** The inspector on a response with a ready pod, a pod with two
    containers that are not ready and a pod without statuses. *)
Example scan_pods_sample :
  scan_pods [ready_pod; crashed_pod; pending_pod; broken_pod]
  = ["controller-c"; "controller-c"; "controller-b"].
Proof. reflexivity. Qed.

(** ** The failure counter *)

(** C1: after every iteration of the monitor loop the failure counter equals
    the length of the current trailing run of unhealthy outcomes since the
    last healthy outcome or the last remediation, iterations whose
    inspection failed being passed over; in one iteration, an inspection
    error leaves the counter unchanged, a healthy poll resets it, an
    unhealthy poll resets it when remediation triggers and adds one
    otherwise; remediation triggers on an unhealthy poll whose incremented
    count has reached the threshold. *)
Theorem failure_count_is_trailing_run cfg dry_run :
  (∀ ws t k,
      failure_count (state_after cfg dry_run (take k ws) (loop_entry t))
      = trailing_run (rev (take k (history cfg dry_run ws (loop_entry t)))))
  ∧ (∀ w s,
      failure_count (state_of (loop_body cfg dry_run w s))
      = match classify w with
        | InspectionError => failure_count s
        | Healthy => 0
        | Unhealthy =>
            if remediated cfg dry_run w s then 0 else failure_count s + 1
        end%Z)
  ∧ (∀ w s,
      remediated cfg dry_run w s
      = match classify w with
        | Unhealthy =>
            bool_decide (FAILURE_THRESHOLD cfg ≤ failure_count s + 1)%Z
        | _ => false
        end).
Proof.
  split; [|split].
  - intros ws t k.
    rewrite <- history_take, history_outcomes, state_after_count.
    apply trailing_run_outcomes.
  - intros w s. rewrite remediated_triggers, loop_body_run.
    cbn [state_of snd failure_count].
    destruct (classify w); reflexivity.
  - intros w s. rewrite remediated_triggers. reflexivity.
Qed.

(** C2: with a positive threshold, at the top of every iteration the
    counter is at least 0 and below the threshold; an unhealthy poll adds
    exactly one, the incremented count never exceeds the threshold,
    remediation triggers exactly when it equals the threshold and the
    counter is then reset to zero; a healthy poll or a failed inspection
    triggers nothing. *)
Theorem failure_count_below_threshold cfg dry_run ws t w :
  (0 < FAILURE_THRESHOLD cfg)%Z →
  let s := state_after cfg dry_run ws (loop_entry t) in
  let s' := state_of (loop_body cfg dry_run w s) in
  (0 ≤ failure_count s < FAILURE_THRESHOLD cfg)%Z
  ∧ match classify w with
    | Unhealthy =>
        (failure_count s + 1 ≤ FAILURE_THRESHOLD cfg)%Z
        ∧ (remediated cfg dry_run w s = true
           ↔ (failure_count s + 1 = FAILURE_THRESHOLD cfg)%Z)
        ∧ failure_count s'
          = (if remediated cfg dry_run w s then 0 else failure_count s + 1)%Z
    | Healthy => remediated cfg dry_run w s = false ∧ failure_count s' = 0%Z
    | InspectionError =>
        remediated cfg dry_run w s = false ∧ failure_count s' = failure_count s
    end.
Proof.
  intros Hpos s s'.
  assert (0 ≤ failure_count s < FAILURE_THRESHOLD cfg)%Z as Hs.
  { subst s. rewrite state_after_count. cbn [loop_entry failure_count].
    apply count_after_bounds, Hpos. }
  split; [exact Hs|].
  subst s'. rewrite remediated_triggers, loop_body_run.
  cbn [state_of snd failure_count].
  destruct (classify w); cbn [triggers next_count]; try (split; reflexivity).
  split; [lia|]. split; [|reflexivity].
  rewrite bool_decide_eq_true. lia.
Qed.

Lemma failure_count_below_threshold_witness :
  (0 < FAILURE_THRESHOLD default_cfg)%Z
  ∧ (0 ≤ failure_count
           (state_after default_cfg false [unhealthy_poll; unhealthy_poll]
              (loop_entry []))
     < FAILURE_THRESHOLD default_cfg)%Z.
Proof.
  split; [reflexivity|].
  apply (failure_count_below_threshold default_cfg false
           [unhealthy_poll; unhealthy_poll] [] unhealthy_poll).
  reflexivity.
Defined.

(** The script does not check [FAILURE_LIMIT]: with a threshold of zero or
    less the counter is 0 at the top of every iteration and every
    unhealthy poll remediates. *)
Lemma nonpositive_threshold_always_remediates cfg dry_run ws t w :
  (FAILURE_THRESHOLD cfg ≤ 0)%Z →
  failure_count (state_after cfg dry_run ws (loop_entry t)) = 0%Z
  ∧ (classify w = Unhealthy →
     remediated cfg dry_run w (state_after cfg dry_run ws (loop_entry t))
     = true).
Proof.
  intros HT.
  assert (failure_count (state_after cfg dry_run ws (loop_entry t)) = 0%Z)
    as Hzero.
  { rewrite state_after_count. cbn [loop_entry failure_count].
    induction (map classify ws) as [|o os IH] using rev_ind; [reflexivity|].
    rewrite count_after_snoc, IH.
    destruct o; cbn [next_count]; try reflexivity.
    rewrite bool_decide_eq_true_2 by lia. reflexivity. }
  split; [exact Hzero|].
  intros Hw. rewrite remediated_triggers, Hzero, Hw. cbn [triggers].
  apply bool_decide_eq_true_2. lia.
Qed.

(** C3: with threshold 3 and the outcomes unhealthy, unhealthy, healthy,
    unhealthy, unhealthy remediation never fires (no restart, no patch, no
    delivery); a healthy poll resets the counter to zero whatever it was;
    and whenever remediation fires, the poll is unhealthy and the most
    recent polls whose inspection returned, as many as the threshold and
    at least one, were all unhealthy. *)
Theorem remediation_needs_consecutive_unhealthy :
  (∀ cfg dry_run ws t,
      FAILURE_THRESHOLD cfg = 3%Z →
      map classify ws = [Unhealthy; Unhealthy; Healthy; Unhealthy; Unhealthy] →
      let events :=
        emitted (loop_entry t) (state_after cfg dry_run ws (loop_entry t)) in
      restart_invoked cfg events = false
      ∧ patches events = [] ∧ notifications events = []
      ∧ map snd (history cfg dry_run ws (loop_entry t))
        = [false; false; false; false; false])
  ∧ (∀ cfg dry_run w s,
      classify w = Healthy →
      failure_count (state_of (loop_body cfg dry_run w s)) = 0%Z
      ∧ remediated cfg dry_run w s = false)
  ∧ (∀ cfg dry_run ws t w,
      remediated cfg dry_run w (state_after cfg dry_run ws (loop_entry t))
      = true →
      classify w = Unhealthy
      ∧ ∃ older,
          List.filter inspected (map classify (ws ++ [w]))
          = (older
             ++ repeat Unhealthy
                  (Z.to_nat (Z.max 1 (FAILURE_THRESHOLD cfg))))%list).
Proof.
  split; [|split].
  - intros cfg dry_run ws t HT Hws events. subst events.
    rewrite state_after_events, history_outcomes.
    cbn [loop_entry failure_count].
    assert (existsb snd
              (outcome_history (FAILURE_THRESHOLD cfg) (map classify ws) 0)
            = false) as Hquiet by (rewrite HT, Hws; reflexivity).
    destruct (loop_events_quiet cfg dry_run ws 0 Hquiet) as (Hr & Hp & Hn).
    repeat split; try assumption.
    rewrite HT, Hws. reflexivity.
  - intros cfg dry_run w s Hw.
    rewrite remediated_triggers, loop_body_run, Hw. split; reflexivity.
  - intros cfg dry_run ws t w Hrem.
    rewrite remediated_triggers in Hrem.
    apply triggers_true in Hrem as [Hw Hge].
    split; [exact Hw|].
    rewrite state_after_count in Hge. cbn [loop_entry failure_count] in Hge.
    pose proof (count_after_streak (FAILURE_THRESHOLD cfg) (map classify ws))
      as Hstreak.
    destruct (streak_run (rev (map classify (ws ++ [w])))
                (Z.to_nat (Z.max 1 (FAILURE_THRESHOLD cfg)))) as [older Ho].
    { rewrite map_app, rev_app_distr. cbn [map rev app]. rewrite Hw.
      cbn [unhealthy_streak]. lia. }
    exists (rev older).
    rewrite <- (rev_involutive (map classify (ws ++ [w]))).
    rewrite filter_rev, Ho, rev_app_distr, rev_repeat. reflexivity.
Qed.

Lemma remediation_needs_consecutive_unhealthy_witness :
  (FAILURE_THRESHOLD default_cfg = 3%Z
   ∧ map classify
       [unhealthy_poll; unhealthy_poll; healthy_poll; unlucky_poll;
        unhealthy_poll]
     = [Unhealthy; Unhealthy; Healthy; Unhealthy; Unhealthy]
   ∧ patches
       (emitted (loop_entry [])
          (state_after default_cfg false
             [unhealthy_poll; unhealthy_poll; healthy_poll; unlucky_poll;
              unhealthy_poll] (loop_entry []))) = [])
  ∧ (classify healthy_poll = Healthy
     ∧ failure_count
         (state_of (loop_body default_cfg false healthy_poll
                      {| failure_count := 2; trace := [] |})) = 0%Z)
  ∧ (remediated default_cfg false unhealthy_poll
       (state_after default_cfg false [unhealthy_poll; failed_poll;
                                       unhealthy_poll] (loop_entry []))
     = true
     ∧ classify unhealthy_poll = Unhealthy).
Proof.
  split; [|split].
  - split; [reflexivity|]. split; [reflexivity|].
    apply (proj1 remediation_needs_consecutive_unhealthy default_cfg false
             [unhealthy_poll; unhealthy_poll; healthy_poll; unlucky_poll;
              unhealthy_poll] [] eq_refl eq_refl).
  - split; [reflexivity|].
    apply (proj1 (proj2 remediation_needs_consecutive_unhealthy) default_cfg
             false healthy_poll {| failure_count := 2; trace := [] |} eq_refl).
  - split; [reflexivity|].
    apply (proj2 (proj2 remediation_needs_consecutive_unhealthy) default_cfg
             false [unhealthy_poll; failed_poll; unhealthy_poll] []
             unhealthy_poll eq_refl).
Defined.



(** ** The remediator *)

Lemma notifications_restart_dry cfg w :
  notifications (restart_events cfg true w) = [].
Proof. reflexivity. Qed.



(** C5, as the code has it: in a dry run the remediator logs the restart
    message and that the restart is skipped, sends no patch and delivers
    nothing to any channel, and returns normally; the iteration that
    reached the threshold resets the counter to zero, and returns
    normally when the interval is not negative. *)
Theorem dry_run_skips_patch_and_notification cfg w s :
  remediated cfg true w s = true →
  restart_nginx_controller cfg true w s
  = (Ok (),
     extend s [EvLog INFO (Text (restart_msg cfg));
               EvLog INFO (Text "[Dry Run] Skipping actual restart")])
  ∧ patches (iteration_events cfg true w s) = []
  ∧ notifications (iteration_events cfg true w s) = []
  ∧ ((0 ≤ CHECK_EVERY cfg)%Z →
     returns_normally (loop_body cfg true w s) = true)
  ∧ failure_count (state_of (loop_body cfg true w s)) = 0%Z.
Proof.
  rewrite remediated_triggers. intros Htrig.
  apply triggers_true in Htrig as [Hw Hge].
  split; [rewrite restart_nginx_controller_run; reflexivity|].
  rewrite iteration_events_body, notifications_body, loop_body_run.
  cbn [state_of snd fst failure_count returns_normally].
  rewrite Hw. cbn [next_count triggers negb andb].
  rewrite bool_decide_eq_true_2 by exact Hge.
  split.
  { unfold patches, body_events, classify in *.
    rewrite !List.filter_app, sleep_events_filter by reflexivity.
    destruct (list_namespaced_pod_result w) as [pods|e]; [|discriminate].
    destruct (scan_pods (items pods)) as [|p broken]; [discriminate|].
    rewrite bool_decide_eq_true_2 by exact Hge. reflexivity. }
  split; [reflexivity|]. split; [|reflexivity].
  intros Hpos. rewrite sleep_result_nonneg by exact Hpos. reflexivity.
Qed.

Lemma dry_run_skips_patch_and_notification_witness :
  remediated alerting_cfg true unhealthy_poll (loop_entry []) = true
  ∧ notifications (iteration_events alerting_cfg true unhealthy_poll
                     (loop_entry [])) = []
  ∧ failure_count
      (state_of (loop_body alerting_cfg true unhealthy_poll (loop_entry [])))
    = 0%Z.
Proof.
  pose proof (dry_run_skips_patch_and_notification alerting_cfg unhealthy_poll
                (loop_entry []) eq_refl) as (_ & _ & Hquiet & _ & Hreset).
  split; [reflexivity|]. split; [exact Hquiet | exact Hreset].
Defined.

(** C5 as worded fails: with every channel configured, a dry run delivers
    nothing while a remediation whose patch succeeds delivers to the
    three channels. *)
Lemma dry_run_notifies_as_success_fails :
  ¬ dry_run_notifies_as_success alerting_cfg unhealthy_poll (loop_entry []).
Proof.
  unfold dry_run_notifies_as_success. intros H.
  specialize (H eq_refl). vm_compute in H. discriminate H.
Qed.

(** ** The notifier *)

(** C7: for every message, configuration and delivery outcome, the fan-out
    returns normally and leaves the counter alone; its events are the
    alert log followed by the events of Slack, of e-mail and of
    PagerDuty, each a function of that channel's own setting and outcome
    only; and a channel that is not configured logs a warning and
    attempts nothing, a configured one attempts its delivery, and a failed
    delivery is followed by its error log. *)
Theorem notify_all_channels_never_raises cfg message w s :
  notify_all_channels cfg message w s
  = (Ok (),
     extend s
       (EvLog INFO (Text ("Alert: " ++ message))
        :: slack_events (SLACK_HOOK_URL cfg) message (slack_post_result w)
        ++ email_events (EMAIL_FROM cfg) (EMAIL_TO cfg) (SMTP_HOST cfg)
             "NGINX Health Alert" message (smtp_result w)
        ++ pagerduty_events (PAGERDUTY_ROUTING_KEY cfg) message
             (pagerduty_post_result w))%list)
  ∧ returns_normally (notify_all_channels cfg message w s) = true
  ∧ failure_count (state_of (notify_all_channels cfg message w s))
    = failure_count s
  ∧ returns_normally (notify_slack cfg message w s) = true
  ∧ returns_normally (notify_email cfg "NGINX Health Alert" message w s) = true
  ∧ returns_normally (notify_pagerduty cfg message w s) = true
  ∧ (∀ configured skip attempt prefix outcome,
       channel_events configured skip attempt prefix outcome
       = match configured, outcome with
         | false, _ => [EvLog WARNING (Text skip)]
         | true, None => [attempt]
         | true, Some err => [attempt; EvLog ERROR (WithErr prefix err)]
         end).
Proof.
  rewrite notify_all_channels_run, notify_slack_run, notify_email_run,
    notify_pagerduty_run.
  repeat split.
  intros [] skip attempt prefix []; reflexivity.
Qed.

(** C8, as the code has it: the e-mail channel delivers exactly when the
    sender and the recipient are set and not empty and the mail relay
    host, [localhost] when it is not set, is not empty; otherwise it logs
    a warning and sends nothing.  An absent relay host does not disable
    the channel. *)
Theorem email_channel_enabled py_int env cfg subject body w s :
  load_config py_int env = Ok cfg →
  let events := emitted s (state_of (notify_email cfg subject body w s)) in
  let enabled :=
    truthy_opt (env !! "EMAIL_FROM") && truthy_opt (env !! "EMAIL_TO")
    && truthy_str (default "localhost" (env !! "SMTP_HOST")) in
  existsb is_smtp events = enabled
  ∧ (enabled = false →
     events = [EvLog WARNING (Text "Email config incomplete, skipping email")])
  ∧ (env !! "SMTP_HOST" = None →
     enabled = truthy_opt (env !! "EMAIL_FROM") && truthy_opt (env !! "EMAIL_TO"))
  ∧ returns_normally (notify_email cfg subject body w s) = true.
Proof.
  intros Hload events enabled.
  assert (EMAIL_FROM cfg = env !! "EMAIL_FROM"
          ∧ EMAIL_TO cfg = env !! "EMAIL_TO"
          ∧ SMTP_HOST cfg = default "localhost" (env !! "SMTP_HOST"))
    as (Hfrom & Hto & Hhost).
  { unfold load_config in Hload.
    destruct (getenv_int py_int env "CHECK_INTERVAL" 60); [|discriminate].
    destruct (getenv_int py_int env "FAILURE_LIMIT" 3); [|discriminate].
    injection Hload as <-. cbn. unfold getenv, getenv_default.
    destruct (env !! "SMTP_HOST"); repeat split. }
  subst events enabled.
  rewrite notify_email_run. cbn [state_of snd].
  unfold extend. rewrite emitted_extend.
  unfold email_events, channel_events. rewrite Hfrom, Hto, Hhost.
  split; [|split; [|split]].
  - destruct (truthy_opt (env !! "EMAIL_FROM") && truthy_opt (env !! "EMAIL_TO")
              && truthy_str (default "localhost" (env !! "SMTP_HOST")));
      [|reflexivity].
    destruct (smtp_result w); reflexivity.
  - intros ->. reflexivity.
  - intros ->. cbn. apply andb_true_r.
  - reflexivity.
Qed.

Lemma load_config_without_relay :
  load_config (λ _, None) env_without_relay = Ok mail_cfg.
Proof. vm_compute. reflexivity. Qed.

Lemma email_channel_enabled_witness :
  load_config (λ _, None) env_without_relay = Ok mail_cfg
  ∧ existsb is_smtp
      (emitted (loop_entry [])
         (state_of (notify_email mail_cfg "NGINX Health Alert" "down"
                      healthy_poll (loop_entry []))))
    = truthy_opt (env_without_relay !! "EMAIL_FROM")
      && truthy_opt (env_without_relay !! "EMAIL_TO")
      && truthy_str (default "localhost" (env_without_relay !! "SMTP_HOST")).
Proof.
  split; [exact load_config_without_relay|].
  apply (email_channel_enabled (λ _, None) env_without_relay mail_cfg
           "NGINX Health Alert" "down" healthy_poll (loop_entry [])
           load_config_without_relay).
Defined.

(** C8 as worded fails: with a sender and a recipient and no relay host in
    the environment the message is sent, through [localhost]. *)
Lemma email_needs_all_three_fails : ¬ email_needs_all_three env_without_relay.
Proof.
  intros H.
  destruct (H (λ _, None) mail_cfg "NGINX Health Alert" "down" healthy_poll
              (loop_entry []) load_config_without_relay)
    as (_ & _ & [host Hhost]).
  - vm_compute. reflexivity.
  - vm_compute in Hhost. discriminate Hhost.
Qed.

(** ** The inspector *)

Lemma scan_containers_repeat p acc cs :
  scan_containers p acc cs
  = (acc ++ repeat (name (metadata p)) (length (List.filter unready cs)))%list.
Proof.
  unfold scan_containers. revert acc.
  induction cs as [|c cs IH]; intros acc; cbn [fold_left List.filter].
  - cbn. rewrite app_nil_r. reflexivity.
  - rewrite IH. unfold unready at 2. destruct (negb (ready c)); [|reflexivity].
    cbn [length repeat]. rewrite <- app_assoc. reflexivity.
Qed.

Lemma scan_pod_repeat acc p :
  scan_pod acc p = (acc ++ repeat (name (metadata p)) (unready_count p))%list.
Proof.
  unfold scan_pod, unready_count.
  destruct (container_statuses (status p)) as [[|c cs]|]; cbn [truthy_list].
  - cbn. rewrite app_nil_r. reflexivity.
  - apply scan_containers_repeat.
  - cbn. rewrite app_nil_r. reflexivity.
Qed.

Lemma fold_scan_pod acc pods :
  fold_left scan_pod pods acc
  = (acc ++ flat_map (λ p, repeat (name (metadata p)) (unready_count p)) pods)%list.
Proof.
  revert acc. induction pods as [|p pods IH]; intros acc; cbn [fold_left flat_map].
  - rewrite app_nil_r. reflexivity.
  - rewrite IH, scan_pod_repeat, <- app_assoc. reflexivity.
Qed.

Lemma scan_pods_flat_map pods :
  scan_pods pods
  = flat_map (λ p, repeat (name (metadata p)) (unready_count p)) pods.
Proof. unfold scan_pods. apply fold_scan_pod. Qed.

Lemma unready_count_unhealthy p :
  pod_unhealthy p = negb (Nat.eqb (unready_count p) 0).
Proof.
  unfold pod_unhealthy, unready_count.
  destruct (container_statuses (status p)) as [cs|]; [|reflexivity].
  induction cs as [|c cs IH]; [reflexivity|].
  cbn [existsb List.filter]. destruct (unready c); [reflexivity|]. exact IH.
Qed.

Lemma scan_pods_single pods :
  Forall (λ p, (unready_count p ≤ 1)%nat) pods →
  scan_pods pods = unhealthy_pod_names pods.
Proof.
  rewrite scan_pods_flat_map. unfold unhealthy_pod_names.
  induction 1 as [|p pods Hp _ IH]; [reflexivity|].
  cbn [flat_map List.filter]. rewrite IH, unready_count_unhealthy.
  destruct (unready_count p) as [|[|n]]; [reflexivity | reflexivity | lia].
Qed.

(** C9, as the code has it: the inspector lists the pods in the order of
    the API response and adds the name of a pod once for each of its
    containers that is not ready, so a name is in the result exactly when
    a pod of that name has a container that is not ready, and a pod
    without container statuses, or with all containers ready, adds
    nothing; the result is empty exactly when no pod is unhealthy; when
    no pod has more than one container that is not ready, the result is
    the ordered subset of the names of the unhealthy pods.  When the API
    call raises, so does the inspector. *)
Theorem get_unhealthy_pods_lists_unready_containers cfg w s :
  get_unhealthy_pods cfg w s
  = (match list_namespaced_pod_result w with
     | Ok pods =>
         Ok (flat_map (λ p, repeat (name (metadata p)) (unready_count p))
               (items pods))
     | Raise err => Raise err
     end,
     extend s [EvListPods (NAMESPACE cfg)
                 "app.kubernetes.io/component=controller"])
  ∧ (∀ pods n,
       In n (scan_pods pods)
       ↔ ∃ p, In p pods ∧ name (metadata p) = n ∧ pod_unhealthy p = true)
  ∧ (∀ p, pod_unhealthy p = false ↔ unready_count p = 0)
  ∧ (∀ p, container_statuses (status p) = None → unready_count p = 0)
  ∧ (∀ pods, truthy_list (scan_pods pods) = existsb pod_unhealthy pods)
  ∧ (∀ pods,
       Forall (λ p, (unready_count p ≤ 1)%nat) pods →
       scan_pods pods = unhealthy_pod_names pods).
Proof.
  split.
  { rewrite get_unhealthy_pods_run.
    destruct (list_namespaced_pod_result w) as [pods|err]; [|reflexivity].
    rewrite scan_pods_flat_map. reflexivity. }
  split.
  { intros pods n. rewrite scan_pods_flat_map, in_flat_map. split.
    - intros (p & Hp & Hn). apply repeat_spec in Hn as Heq.
      exists p. repeat split; [exact Hp | congruence |].
      rewrite unready_count_unhealthy.
      destruct (unready_count p); [destruct Hn | reflexivity].
    - intros (p & Hp & <- & Hun). exists p. split; [exact Hp|].
      rewrite unready_count_unhealthy in Hun.
      destruct (unready_count p); [discriminate | left; reflexivity]. }
  split.
  { intros p. rewrite unready_count_unhealthy.
    destruct (unready_count p); cbn; split; congruence. }
  split.
  { intros p Hp. unfold unready_count. rewrite Hp. reflexivity. }
  split.
  { intros pods. rewrite scan_pods_flat_map.
    induction pods as [|p pods IH]; [reflexivity|].
    cbn [flat_map existsb]. rewrite unready_count_unhealthy.
    destruct (unready_count p); [exact IH | reflexivity]. }
  exact scan_pods_single.
Qed.

Lemma get_unhealthy_pods_lists_unready_containers_witness :
  Forall (λ p, (unready_count p ≤ 1)%nat) [ready_pod; broken_pod; pending_pod]
  ∧ scan_pods [ready_pod; broken_pod; pending_pod]
    = unhealthy_pod_names [ready_pod; broken_pod; pending_pod]
  ∧ container_statuses (status pending_pod) = None
  ∧ unready_count pending_pod = 0%nat.
Proof.
  pose proof (get_unhealthy_pods_lists_unready_containers default_cfg
                healthy_poll (loop_entry [])) as (_ & _ & _ & Hnone & _ & Hone).
  assert (Forall (λ p, (unready_count p ≤ 1)%nat)
            [ready_pod; broken_pod; pending_pod]) as Hall
    by (repeat constructor).
  split; [exact Hall|]. split; [exact (Hone _ Hall)|].
  split; [reflexivity|]. exact (Hnone pending_pod eq_refl).
Defined.

(** C9 as worded fails: a pod with two containers that are not ready is
    listed twice. *)
Lemma returns_unhealthy_subset_fails : ¬ returns_unhealthy_subset.
Proof.
  intros H.
  specialize (H default_cfg (poll (Ok {| items := [ready_pod; crashed_pod] |}))
                (loop_entry []) _ eq_refl).
  vm_compute in H. discriminate H.
Qed.

(** ** Two runs *)

(** C10: two runs of the loop with the same threshold whose polls have the
    same outcomes, iteration by iteration, hold the same counter at the
    top of every iteration, whatever their other settings, their dry-run
    flags and the outcomes of their patch and delivery calls. *)
Theorem failure_count_depends_on_outcomes_only
    cfg1 cfg2 dry_run1 dry_run2 ws1 ws2 t1 t2 k :
  FAILURE_THRESHOLD cfg1 = FAILURE_THRESHOLD cfg2 →
  map classify ws1 = map classify ws2 →
  failure_count (state_after cfg1 dry_run1 (take k ws1) (loop_entry t1))
  = failure_count (state_after cfg2 dry_run2 (take k ws2) (loop_entry t2)).
Proof.
  intros HT Hws. rewrite !state_after_count, HT, <- !firstn_map, Hws.
  reflexivity.
Qed.

Lemma failure_count_depends_on_outcomes_only_witness :
  FAILURE_THRESHOLD alerting_cfg
  = FAILURE_THRESHOLD
      {| NAMESPACE := "edge"; DEPLOYMENT_NAME := "controller";
         SLACK_HOOK_URL := None; PAGERDUTY_ROUTING_KEY := None;
         EMAIL_FROM := None; EMAIL_TO := None; SMTP_HOST := "";
         CHECK_EVERY := 5; FAILURE_THRESHOLD := 1 |}
  ∧ map classify [unhealthy_poll; failed_poll; healthy_poll]
    = map classify [unlucky_poll; failed_poll; healthy_poll]
  ∧ failure_count
      (state_after alerting_cfg false
         (take 2 [unhealthy_poll; failed_poll; healthy_poll]) (loop_entry []))
    = failure_count
        (state_after
           {| NAMESPACE := "edge"; DEPLOYMENT_NAME := "controller";
              SLACK_HOOK_URL := None; PAGERDUTY_ROUTING_KEY := None;
              EMAIL_FROM := None; EMAIL_TO := None; SMTP_HOST := "";
              CHECK_EVERY := 5; FAILURE_THRESHOLD := 1 |}
           true (take 2 [unlucky_poll; failed_poll; healthy_poll])
           (loop_entry [EvPrint "earlier"])).
Proof.
  split; [reflexivity|]. split; [reflexivity|].
  apply failure_count_depends_on_outcomes_only; reflexivity.
Defined.

(** * Further properties of the script *)

(** ** What the events of a run add up to *)









Lemma patches_body cfg dry_run w n :
  patches (body_events cfg dry_run w n)
  = if triggers (FAILURE_THRESHOLD cfg) n (classify w) && negb dry_run
    then [patch_event cfg w] else [].
Proof.
  destruct (triggers (FAILURE_THRESHOLD cfg) n (classify w)) eqn:Htrig.
  2:{ apply body_events_quiet, Htrig. }
  apply triggers_true in Htrig as [Hw Hge].
  unfold patches, body_events, classify in *.
  rewrite !List.filter_app, sleep_events_filter by reflexivity.
  destruct (list_namespaced_pod_result w) as [pods|err]; [|discriminate].
  destruct (scan_pods (items pods)) as [|p broken]; [discriminate|].
  rewrite bool_decide_eq_true_2 by exact Hge.
  unfold restart_events. destruct dry_run; [reflexivity|].
  cbn [app List.filter is_patch patch_event negb andb].
  destruct (patch_namespaced_deployment_result w); cbn [List.filter is_patch];
    [reflexivity|].
  fold (patches (notify_events cfg
                   ("Remediation triggered: " ++ restart_msg cfg) w)).
  rewrite patches_notify_events. reflexivity.
Qed.

Lemma notifications_body_dry cfg w n :
  notifications (body_events cfg true w n) = [].
Proof. rewrite notifications_body, andb_false_r. reflexivity. Qed.

(** X2: a dry run never sends a patch and never delivers to a channel, in
    no iteration and from any state. *)
Theorem dry_run_never_patches_or_notifies cfg ws s :
  let events := emitted s (state_after cfg true ws s) in
  patches events = [] ∧ notifications events = [].
Proof.
  cbn zeta. rewrite state_after_events. generalize (failure_count s) as n.
  induction ws as [|w ws IH]; intros n; [split; reflexivity|].
  destruct (IH (next_count (FAILURE_THRESHOLD cfg) n (classify w)))
    as [IHp IHn].
  cbn [loop_events]. unfold patches, notifications in *.
  rewrite !List.filter_app, IHp, IHn.
  fold (patches (body_events cfg true w n)).
  fold (notifications (body_events cfg true w n)).
  rewrite patches_body, notifications_body_dry, andb_false_r.
  split; reflexivity.
Qed.

(** X3: outside a dry run the loop sends exactly one patch per
    remediation, whether the patch call returns or raises, and each patch
    names the configured deployment and namespace. *)
Theorem one_patch_per_remediation cfg ws s :
  let events := emitted s (state_after cfg false ws s) in
  length (patches events) = remediations (history cfg false ws s)
  ∧ Forall (λ e, ∃ body,
              e = EvPatchDeployment (DEPLOYMENT_NAME cfg) (NAMESPACE cfg) body)
      (patches events).
Proof.
  cbn zeta. rewrite state_after_events, history_outcomes.
  generalize (failure_count s) as n.
  induction ws as [|w ws IH]; intros n; [split; [reflexivity|constructor]|].
  destruct (IH (next_count (FAILURE_THRESHOLD cfg) n (classify w)))
    as [IHlen IHall].
  cbn [loop_events map outcome_history]. unfold patches, remediations in *.
  rewrite List.filter_app, length_app, IHlen.
  fold (patches (body_events cfg false w n)). rewrite patches_body.
  cbn [List.filter snd negb]. rewrite andb_true_r.
  destruct (triggers (FAILURE_THRESHOLD cfg) n (classify w)).
  - split; [reflexivity|]. constructor; [|exact IHall].
    eexists. reflexivity.
  - split; [reflexivity | exact IHall].
Qed.

Lemma notifications_channel configured skip attempt prefix outcome :
  is_notification attempt = true →
  notifications (channel_events configured skip attempt prefix outcome)
  = if configured then [attempt] else [].
Proof.
  intros Ha. unfold notifications, channel_events.
  destruct configured, outcome; cbn; rewrite ?Ha; reflexivity.
Qed.

(** X4: one alert makes one delivery attempt per configured channel and
    no more, whether the deliveries return or raise: the Slack post when
    the URL is set and not empty, then the e-mail when its settings are
    complete, then the PagerDuty trigger when the key is set and not
    empty; a channel that is not configured makes no attempt, there is
    no retry and no channel is attempted twice. *)
Theorem one_delivery_per_configured_channel cfg message w s :
  notifications (emitted s (state_of (notify_all_channels cfg message w s)))
  = ((if truthy_opt (SLACK_HOOK_URL cfg)
      then [EvHttpPost (default "" (SLACK_HOOK_URL cfg))
              (JObj [("text", JStr message)])]
      else [])
     ++ (if email_config_complete cfg
         then [EvSmtpSend (SMTP_HOST cfg)
                 {| msg_content := message;
                    msg_subject := "NGINX Health Alert";
                    msg_from := EMAIL_FROM cfg;
                    msg_to := EMAIL_TO cfg |}]
         else [])
     ++ (if truthy_opt (PAGERDUTY_ROUTING_KEY cfg)
         then [EvHttpPost "https://events.pagerduty.com/v2/enqueue"
                 (JObj [("routing_key",
                         JStr (default "" (PAGERDUTY_ROUTING_KEY cfg)));
                        ("event_action", JStr "trigger");
                        ("payload",
                         JObj [("summary", JStr message);
                               ("severity", JStr "critical");
                               ("source", JStr "nginx-ingress-monitor")])])]
         else []))%list
  ∧ length
      (notifications
         (emitted s (state_of (notify_all_channels cfg message w s))))
    = configured_channels cfg.
Proof.
  rewrite notify_all_channels_run. cbn [state_of snd]. unfold extend.
  rewrite emitted_extend.
  unfold notify_events, slack_events, email_events, pagerduty_events,
    configured_channels, email_config_complete.
  change (notifications (?e :: ?l)) with (List.filter is_notification ([e] ++ l)).
  rewrite !List.filter_app.
  fold (notifications
          (channel_events (truthy_opt (SLACK_HOOK_URL cfg))
             "Slack URL not set, skipping Slack notification"
             (EvHttpPost (default "" (SLACK_HOOK_URL cfg))
                (JObj [("text", JStr message)]))
             "Slack error: " (slack_post_result w))).
  rewrite notifications_channel by reflexivity.
  unfold notifications. rewrite !notifications_channel by reflexivity.
  cbn [List.filter is_notification app].
  split; [reflexivity|].
  destruct (truthy_opt (SLACK_HOOK_URL cfg)),
    (truthy_opt (EMAIL_FROM cfg) && truthy_opt (EMAIL_TO cfg)
     && truthy_str (SMTP_HOST cfg)),
    (truthy_opt (PAGERDUTY_ROUTING_KEY cfg)); reflexivity.
Qed.

(** ** Arithmetic of the counter *)

Lemma remediations_snoc h o b :
  remediations (h ++ [(o, b)]) = (remediations h + bool_to_nat b)%nat.
Proof.
  unfold remediations. rewrite List.filter_app, length_app.
  destruct b; reflexivity.
Qed.

Lemma unhealthy_polls_snoc os o :
  unhealthy_polls (os ++ [o])
  = (unhealthy_polls os + bool_to_nat (is_unhealthy o))%nat.
Proof.
  unfold unhealthy_polls. rewrite List.filter_app, length_app.
  destruct o; reflexivity.
Qed.

Lemma remediation_budget_outcomes threshold os :
  (0 < threshold)%Z →
  (threshold * Z.of_nat (remediations (outcome_history threshold os 0))
   + count_after threshold os 0
   ≤ Z.of_nat (unhealthy_polls os))%Z
  ∧ (existsb is_healthy os = false →
     (threshold * Z.of_nat (remediations (outcome_history threshold os 0))
      + count_after threshold os 0
      = Z.of_nat (unhealthy_polls os))%Z).
Proof.
  intros Hpos. induction os as [|o os [IHle IHeq]] using rev_ind.
  - split; [cbn; lia | intros _; cbn; lia].
  - pose proof (count_after_bounds threshold os Hpos) as Hc.
    rewrite outcome_history_snoc, remediations_snoc, unhealthy_polls_snoc,
      count_after_snoc, existsb_app.
    destruct o; cbn [next_count triggers bool_to_nat is_unhealthy is_healthy
                       existsb].
    + split; [lia | rewrite orb_true_r; discriminate].
    + split.
      * case_bool_decide; cbn [bool_to_nat]; lia.
      * rewrite orb_false_r. intros Hno. specialize (IHeq Hno).
        case_bool_decide; cbn [bool_to_nat]; lia.
    + split; [lia|]. rewrite orb_false_r. intros Hno. specialize (IHeq Hno).
      lia.
Qed.

(** X5: with a positive threshold, every remediation is paid for by
    threshold-many unhealthy polls of its own: the threshold times the
    number of remediations, plus the counter, never exceeds the number of
    unhealthy polls so far, and equals it while no poll has been healthy.
    The loop cannot remediate more often than once per threshold
    unhealthy polls. *)
Theorem remediation_budget cfg dry_run ws t :
  (0 < FAILURE_THRESHOLD cfg)%Z →
  let s := loop_entry t in
  (FAILURE_THRESHOLD cfg
   * Z.of_nat (remediations (history cfg dry_run ws s))
   + failure_count (state_after cfg dry_run ws s)
   ≤ Z.of_nat (unhealthy_polls (map classify ws)))%Z
  ∧ (existsb is_healthy (map classify ws) = false →
     (FAILURE_THRESHOLD cfg
      * Z.of_nat (remediations (history cfg dry_run ws s))
      + failure_count (state_after cfg dry_run ws s)
      = Z.of_nat (unhealthy_polls (map classify ws)))%Z).
Proof.
  intros Hpos s. subst s.
  rewrite history_outcomes, state_after_count.
  cbn [loop_entry failure_count].
  apply remediation_budget_outcomes, Hpos.
Qed.

Lemma remediation_budget_witness :
  (0 < FAILURE_THRESHOLD default_cfg)%Z
  ∧ (FAILURE_THRESHOLD default_cfg
     * Z.of_nat
         (remediations
            (history default_cfg false
               [unhealthy_poll; unhealthy_poll; failed_poll; unhealthy_poll;
                unhealthy_poll] (loop_entry [])))
     + failure_count
         (state_after default_cfg false
            [unhealthy_poll; unhealthy_poll; failed_poll; unhealthy_poll;
             unhealthy_poll] (loop_entry []))
     ≤ Z.of_nat
         (unhealthy_polls
            (map classify
               [unhealthy_poll; unhealthy_poll; failed_poll; unhealthy_poll;
                unhealthy_poll])))%Z.
Proof.
  split; [reflexivity|].
  apply (remediation_budget default_cfg false
           [unhealthy_poll; unhealthy_poll; failed_poll; unhealthy_poll;
            unhealthy_poll] []).
  reflexivity.
Defined.

Lemma succ_mod_threshold threshold k :
  (0 < threshold)%Z → (0 ≤ k)%Z →
  ((1 + k) mod threshold
   = if bool_decide (threshold ≤ k mod threshold + 1)
     then 0 else k mod threshold + 1)%Z.
Proof.
  intros Hpos Hk.
  pose proof (Z.mod_pos_bound k threshold Hpos) as Hbound.
  pose proof (Z.div_mod k threshold ltac:(lia)) as Hdiv.
  case_bool_decide.
  - symmetry. apply (Z.mod_unique_pos _ _ (k / threshold + 1)); lia.
  - symmetry. apply (Z.mod_unique_pos _ _ (k / threshold)); lia.
Qed.

Lemma unhealthy_streak_nonneg os : (0 ≤ unhealthy_streak os)%Z.
Proof. induction os as [|[] os IH]; cbn [unhealthy_streak]; lia. Qed.

Lemma count_after_mod threshold os :
  (0 < threshold)%Z →
  count_after threshold os 0 = (unhealthy_streak (rev os) mod threshold)%Z.
Proof.
  intros Hpos. induction os as [|o os IH] using rev_ind.
  - cbn. rewrite Z.mod_0_l by lia. reflexivity.
  - rewrite count_after_snoc, rev_app_distr. cbn [rev app unhealthy_streak].
    destruct o; cbn [next_count].
    + rewrite Z.mod_0_l by lia. reflexivity.
    + rewrite succ_mod_threshold, IH;
        [reflexivity | exact Hpos | apply unhealthy_streak_nonneg].
    + exact IH.
Qed.

(** X6: with a positive threshold the counter is the number of unhealthy
    polls since the last healthy one, inspection failures passed over,
    modulo the threshold; and an iteration remediates exactly when its
    poll is unhealthy and brings that number to a multiple of the
    threshold.  Under lasting failure the restarts come every
    threshold-th unhealthy poll. *)
Theorem failure_count_is_streak_mod_threshold cfg dry_run ws t w :
  (0 < FAILURE_THRESHOLD cfg)%Z →
  let s := state_after cfg dry_run ws (loop_entry t) in
  failure_count s
  = (unhealthy_streak (rev (map classify ws)) mod FAILURE_THRESHOLD cfg)%Z
  ∧ (remediated cfg dry_run w s = true
     ↔ classify w = Unhealthy
       ∧ (unhealthy_streak (rev (map classify (ws ++ [w])))
          mod FAILURE_THRESHOLD cfg = 0)%Z).
Proof.
  intros Hpos s. subst s.
  rewrite remediated_triggers, state_after_count.
  cbn [loop_entry failure_count].
  pose proof (count_after_mod (FAILURE_THRESHOLD cfg) (map classify ws) Hpos)
    as Hmod.
  split; [exact Hmod|].
  rewrite triggers_true, map_app, rev_app_distr. cbn [map rev app].
  pose proof (count_after_bounds (FAILURE_THRESHOLD cfg) (map classify ws) Hpos)
    as Hc.
  split; intros [Hw H]; (split; [exact Hw|]); rewrite Hw in *;
    cbn [unhealthy_streak] in *.
  - rewrite succ_mod_threshold, <- Hmod;
      [|exact Hpos | apply unhealthy_streak_nonneg].
    rewrite bool_decide_eq_true_2 by exact H. reflexivity.
  - rewrite succ_mod_threshold, <- Hmod in H;
      [|exact Hpos | apply unhealthy_streak_nonneg].
    case_bool_decide; lia.
Qed.

Lemma failure_count_is_streak_mod_threshold_witness :
  (0 < FAILURE_THRESHOLD default_cfg)%Z
  ∧ failure_count
      (state_after default_cfg true
         [unhealthy_poll; unhealthy_poll; unhealthy_poll; failed_poll;
          unhealthy_poll] (loop_entry []))
    = (unhealthy_streak
         (rev (map classify
                 [unhealthy_poll; unhealthy_poll; unhealthy_poll; failed_poll;
                  unhealthy_poll]))
       mod FAILURE_THRESHOLD default_cfg)%Z.
Proof.
  split; [reflexivity|].
  apply (failure_count_is_streak_mod_threshold default_cfg true
           [unhealthy_poll; unhealthy_poll; unhealthy_poll; failed_poll;
            unhealthy_poll] [] healthy_poll).
  reflexivity.
Defined.

(** X7: iterations whose inspection raised leave no mark on the counter:
    dropping them from a run, wherever they stand, gives the same counter
    at the end, from any state. *)
Theorem inspection_failures_are_transparent cfg dry_run ws s :
  failure_count (state_after cfg dry_run ws s)
  = failure_count
      (state_after cfg dry_run
         (List.filter (λ w, inspected (classify w)) ws) s).
Proof.
  rewrite !state_after_count. generalize (failure_count s) as n.
  induction ws as [|w ws IH]; intros n; [reflexivity|].
  cbn [map List.filter]. unfold count_after in *. cbn [fold_left].
  destruct (classify w) eqn:Hw; cbn [inspected map fold_left next_count];
    rewrite ?Hw; cbn [next_count]; apply IH.
Qed.

Lemma detected_counts_app t1 t2 :
  detected_counts (t1 ++ t2) = (detected_counts t1 ++ detected_counts t2)%list.
Proof. unfold detected_counts. apply flat_map_app. Qed.

Lemma detected_counts_channel configured skip attempt prefix outcome :
  detected_counts [attempt] = [] →
  detected_counts (channel_events configured skip attempt prefix outcome) = [].
Proof.
  intros Ha. unfold channel_events.
  destruct configured, outcome; [| |reflexivity|reflexivity].
  - change (attempt :: [EvLog ERROR (WithErr prefix e)])%list
      with ([attempt] ++ [EvLog ERROR (WithErr prefix e)])%list.
    rewrite detected_counts_app, Ha. reflexivity.
  - exact Ha.
Qed.

Lemma detected_counts_restart cfg dry_run w :
  detected_counts (restart_events cfg dry_run w) = [].
Proof.
  unfold restart_events. destruct dry_run; [reflexivity|].
  destruct (patch_namespaced_deployment_result w); [reflexivity|].
  unfold notify_events, slack_events, email_events, pagerduty_events.
  change (detected_counts ?l = [])
    with (flat_map (λ e, match e with
                         | EvLog WARNING (Detected _ n) => [n]
                         | _ => []
                         end) l = []).
  cbn [flat_map app]. fold detected_counts.
  rewrite !detected_counts_app, !detected_counts_channel; reflexivity.
Qed.

Lemma detected_counts_body cfg dry_run w n :
  detected_counts (body_events cfg dry_run w n)
  = match classify w with
    | Unhealthy => [(n + 1)%Z]
    | _ => []
    end.
Proof.
  unfold body_events, classify. rewrite !detected_counts_app.
  assert (detected_counts (sleep_events cfg) = []) as ->.
  { unfold sleep_events. destruct (bool_decide (CHECK_EVERY cfg < 0)%Z);
      reflexivity. }
  rewrite !app_nil_r.
  destruct (list_namespaced_pod_result w) as [pods|err]; [|reflexivity].
  destruct (scan_pods (items pods)) as [|p broken]; [reflexivity|].
  cbn [truthy_list].
  change (EvLog WARNING (Detected (p :: broken) (n + 1)) :: ?l)%list
    with ([EvLog WARNING (Detected (p :: broken) (n + 1))] ++ l)%list.
  rewrite detected_counts_app.
  case_bool_decide; rewrite ?detected_counts_restart; reflexivity.
Qed.

(** X8: with a positive threshold, every number the loop prints as
    [failure #n] lies between 1 and the threshold, and the run prints one
    such warning per unhealthy poll. *)
Theorem logged_failure_numbers_in_range cfg dry_run ws t :
  (0 < FAILURE_THRESHOLD cfg)%Z →
  let counts :=
    detected_counts
      (emitted (loop_entry t) (state_after cfg dry_run ws (loop_entry t))) in
  Forall (λ n, (1 ≤ n ≤ FAILURE_THRESHOLD cfg)%Z) counts
  ∧ length counts = unhealthy_polls (map classify ws).
Proof.
  intros Hpos counts. subst counts. rewrite state_after_events.
  cbn [loop_entry failure_count].
  enough (∀ n, (0 ≤ n < FAILURE_THRESHOLD cfg)%Z →
               Forall (λ k, (1 ≤ k ≤ FAILURE_THRESHOLD cfg)%Z)
                 (detected_counts (loop_events cfg dry_run ws n))
               ∧ length (detected_counts (loop_events cfg dry_run ws n))
                 = unhealthy_polls (map classify ws)) as Hgen
    by (apply Hgen; lia).
  induction ws as [|w ws IH]; intros n Hn; [split; [constructor|reflexivity]|].
  destruct (IH (next_count (FAILURE_THRESHOLD cfg) n (classify w)))
    as [IHall IHlen].
  { apply next_count_bounds; assumption. }
  cbn [loop_events map]. rewrite detected_counts_app, detected_counts_body.
  unfold unhealthy_polls in *. cbn [List.filter].
  destruct (classify w); cbn [is_unhealthy app length].
  - split; assumption.
  - split; [constructor; [lia | exact IHall] | f_equal; exact IHlen].
  - split; assumption.
Qed.

Lemma logged_failure_numbers_in_range_witness :
  (0 < FAILURE_THRESHOLD default_cfg)%Z
  ∧ Forall (λ n, (1 ≤ n ≤ FAILURE_THRESHOLD default_cfg)%Z)
      (detected_counts
         (emitted (loop_entry [])
            (state_after default_cfg false
               [unhealthy_poll; unhealthy_poll; unhealthy_poll; unhealthy_poll]
               (loop_entry [])))).
Proof.
  split; [reflexivity|].
  apply (logged_failure_numbers_in_range default_cfg false
           [unhealthy_poll; unhealthy_poll; unhealthy_poll; unhealthy_poll] []).
  reflexivity.
Defined.

(** X9: with a threshold of 1 or less the counter is 0 at the top of every
    iteration, every unhealthy poll remediates at once, and no other poll
    does. *)
Theorem threshold_of_one_remediates_every_unhealthy_poll cfg dry_run ws t w :
  (FAILURE_THRESHOLD cfg ≤ 1)%Z →
  let s := state_after cfg dry_run ws (loop_entry t) in
  failure_count s = 0%Z
  ∧ remediated cfg dry_run w s = is_unhealthy (classify w).
Proof.
  intros HT s. subst s.
  assert (failure_count (state_after cfg dry_run ws (loop_entry t)) = 0%Z)
    as Hzero.
  { rewrite state_after_count. cbn [loop_entry failure_count].
    induction (map classify ws) as [|o os IH] using rev_ind; [reflexivity|].
    rewrite count_after_snoc, IH.
    destruct o; cbn [next_count]; try reflexivity.
    rewrite bool_decide_eq_true_2 by lia. reflexivity. }
  split; [exact Hzero|].
  rewrite remediated_triggers, Hzero.
  destruct (classify w); cbn [triggers is_unhealthy]; try reflexivity.
  apply bool_decide_eq_true_2. lia.
Qed.

Lemma threshold_of_one_remediates_every_unhealthy_poll_witness :
  (FAILURE_THRESHOLD alerting_cfg ≤ 1)%Z
  ∧ failure_count
      (state_after alerting_cfg false [unhealthy_poll; unlucky_poll]
         (loop_entry [])) = 0%Z
  ∧ remediated alerting_cfg false unhealthy_poll
      (state_after alerting_cfg false [unhealthy_poll; unlucky_poll]
         (loop_entry []))
    = is_unhealthy (classify unhealthy_poll).
Proof.
  split; [discriminate|].
  apply (threshold_of_one_remediates_every_unhealthy_poll alerting_cfg false
           [unhealthy_poll; unlucky_poll] [] unhealthy_poll).
  discriminate.
Defined.

(** ** Settings *)

(** X10: the settings depend on the nine variables the script reads and
    on nothing else: setting or removing any other variable of the
    environment changes neither the loaded settings nor whether loading
    fails. *)
Theorem load_config_ignores_other_variables py_int env k v :
  ¬ In k script_variables →
  load_config py_int (<[k := v]> env) = load_config py_int env
  ∧ load_config py_int (delete k env) = load_config py_int env.
Proof.
  intros Hk. unfold script_variables in Hk. cbn [In] in Hk.
  assert (∀ key, In key script_variables →
                 (<[k := v]> env) !! key = env !! key
                 ∧ (delete k env) !! key = env !! key) as Hsame.
  { intros key Hkey.
    assert (k ≠ key) as Hne.
    { intros ->. unfold script_variables in Hkey. cbn [In] in Hkey. tauto. }
    rewrite lookup_insert_ne, lookup_delete_ne by exact Hne. split; reflexivity. }
  unfold load_config, getenv_int, getenv, getenv_default, script_variables
    in *.
  split.
  - rewrite !(λ key H, proj1 (Hsame key H)) by (cbn [In]; tauto). reflexivity.
  - rewrite !(λ key H, proj2 (Hsame key H)) by (cbn [In]; tauto). reflexivity.
Qed.

Lemma load_config_ignores_other_variables_witness :
  ¬ In "HOME" script_variables
  ∧ load_config (λ _, None) (<["HOME" := "/root"]> env_without_relay)
    = load_config (λ _, None) env_without_relay.
Proof.
  assert (¬ In "HOME" script_variables) as Hk.
  { unfold script_variables. cbn [In]. intros H.
    repeat (destruct H as [H|H]; [discriminate H|]). exact H. }
  split; [exact Hk|].
  apply (load_config_ignores_other_variables (λ _, None) env_without_relay
           "HOME" "/root" Hk).
Defined.

(** X11: loading the settings fails exactly when [CHECK_INTERVAL] or
    [FAILURE_LIMIT] is set to something [int] rejects; no value of the
    other variables makes it fail; when it succeeds the interval and the
    threshold are what [int] made of the variables, and 60 and 3 when
    they are not set, without [int] being consulted. *)
Theorem load_config_fails_only_on_integers py_int env :
  is_ok (load_config py_int env)
  = parses py_int env "CHECK_INTERVAL" && parses py_int env "FAILURE_LIMIT"
  ∧ match load_config py_int env with
    | Ok cfg =>
        Some (CHECK_EVERY cfg)
        = match env !! "CHECK_INTERVAL" with
          | None => Some 60%Z
          | Some v => py_int v
          end
        ∧ Some (FAILURE_THRESHOLD cfg)
          = match env !! "FAILURE_LIMIT" with
            | None => Some 3%Z
            | Some v => py_int v
            end
    | Raise _ => True
    end.
Proof.
  unfold load_config, getenv_int, parses, is_ok.
  destruct (env !! "CHECK_INTERVAL") as [ci|];
    [destruct (py_int ci) as [i|] eqn:Hi|];
    (destruct (env !! "FAILURE_LIMIT") as [fl|];
     [destruct (py_int fl) as [f|] eqn:Hf|]);
    cbn [andb CHECK_EVERY FAILURE_THRESHOLD];
    repeat match goal with
           | |- context [bool_decide (is_Some (Some ?x))] =>
               rewrite (bool_decide_eq_true_2 (is_Some (Some x)))
                 by (eexists; reflexivity)
           | |- context [bool_decide (is_Some None)] =>
               rewrite (bool_decide_eq_false_2 (is_Some (@None Z)))
                 by (intros [? ?]; discriminate)
           end;
    cbn [andb]; (split; [reflexivity|]); try exact I;
    split; reflexivity.
Qed.

(** ** Start-up *)







(** ** The inspector on parts of a response *)

(** X13: the inspector works pod by pod: the result for a response is the
    result for its first part followed by the result for the rest, it is
    empty for an empty response, and its length is the number of
    containers of the response that are not ready. *)
Theorem scan_pods_is_additive ps qs :
  scan_pods (ps ++ qs) = (scan_pods ps ++ scan_pods qs)%list
  ∧ scan_pods [] = []
  ∧ length (scan_pods ps) = list_sum (map unready_count ps).
Proof.
  rewrite !scan_pods_flat_map. split; [apply flat_map_app|].
  split; [reflexivity|].
  induction ps as [|p ps IH]; [reflexivity|].
  cbn [flat_map map list_sum]. rewrite length_app, repeat_length, IH.
  reflexivity.
Qed.

(** ** Blank settings *)

Lemma slack_events_blank url message outcome :
  slack_events (blank_to_unset url) message outcome
  = slack_events url message outcome.
Proof. destruct url as [[|c u]|]; reflexivity. Qed.

Lemma pagerduty_events_blank key message outcome :
  pagerduty_events (blank_to_unset key) message outcome
  = pagerduty_events key message outcome.
Proof. destruct key as [[|c k]|]; reflexivity. Qed.

Lemma email_events_blank from to host subject body outcome :
  email_events (blank_to_unset from) (blank_to_unset to) host subject body
    outcome
  = email_events from to host subject body outcome.
Proof.
  destruct from as [[|c f]|], to as [[|d t]|]; try reflexivity;
    unfold email_events, channel_events, blank_to_unset; cbn;
    destruct (truthy_str host); reflexivity.
Qed.

(** X14: a channel variable set to the empty string counts as not set:
    replacing empty Slack, PagerDuty, sender and recipient settings by
    absent ones changes nothing in what an iteration of the loop does,
    neither its result nor its counter nor its events. *)
Theorem blank_channel_setting_is_unset cfg dry_run w s :
  loop_body (unset_blank_channels cfg) dry_run w s = loop_body cfg dry_run w s
  ∧ ∀ message,
      notify_all_channels (unset_blank_channels cfg) message w s
      = notify_all_channels cfg message w s.
Proof.
  assert (∀ message,
            notify_events (unset_blank_channels cfg) message w
            = notify_events cfg message w) as Hnotify.
  { intros message. unfold notify_events, unset_blank_channels.
    cbn [SLACK_HOOK_URL EMAIL_FROM EMAIL_TO SMTP_HOST PAGERDUTY_ROUTING_KEY].
    rewrite slack_events_blank, pagerduty_events_blank, email_events_blank.
    reflexivity. }
  split.
  - rewrite !loop_body_run. f_equal. f_equal.
    unfold body_events, restart_events, patch_event, restart_msg.
    rewrite Hnotify. reflexivity.
  - intros message. rewrite !notify_all_channels_run, Hnotify. reflexivity.
Qed.

(** ** Sustained failure *)

Lemma sustained_failure_outcomes threshold os n :
  (0 ≤ n < threshold)%Z →
  forallb is_unhealthy os = true →
  (threshold - n ≤ Z.of_nat (length os))%Z →
  existsb snd (outcome_history threshold os n) = true.
Proof.
  revert n. induction os as [|o os IH]; intros n Hn Hall Hlen.
  - cbn in Hlen. lia.
  - cbn [forallb] in Hall. apply andb_true_iff in Hall as [Ho Hos].
    destruct o; try discriminate.
    cbn [outcome_history existsb snd triggers next_count].
    case_bool_decide; [reflexivity|]. cbn [orb].
    apply IH; [lia | exact Hos | cbn [length] in Hlen; lia].
Qed.

(** X15: lasting failure is remediated in time: with a positive threshold,
    from any state the loop can be in, a stretch of unhealthy polls as
    long as the threshold contains a remediation. *)
Theorem sustained_failure_is_remediated cfg dry_run ws t ws' :
  (0 < FAILURE_THRESHOLD cfg)%Z →
  forallb is_unhealthy (map classify ws') = true →
  (FAILURE_THRESHOLD cfg ≤ Z.of_nat (length ws'))%Z →
  existsb snd
    (history cfg dry_run ws' (state_after cfg dry_run ws (loop_entry t)))
  = true.
Proof.
  intros Hpos Hall Hlen. rewrite history_outcomes, state_after_count.
  cbn [loop_entry failure_count].
  pose proof (count_after_bounds (FAILURE_THRESHOLD cfg) (map classify ws) Hpos)
    as Hc.
  apply sustained_failure_outcomes;
    [exact Hc | exact Hall | rewrite length_map; lia].
Qed.

Lemma sustained_failure_is_remediated_witness :
  (0 < FAILURE_THRESHOLD default_cfg)%Z
  ∧ forallb is_unhealthy
      (map classify [unhealthy_poll; unlucky_poll; unhealthy_poll]) = true
  ∧ (FAILURE_THRESHOLD default_cfg
     ≤ Z.of_nat (length [unhealthy_poll; unlucky_poll; unhealthy_poll]))%Z
  ∧ existsb snd
      (history default_cfg false [unhealthy_poll; unlucky_poll; unhealthy_poll]
         (state_after default_cfg false [unhealthy_poll; healthy_poll]
            (loop_entry [])))
    = true.
Proof.
  split; [reflexivity|]. split; [reflexivity|]. split; [discriminate|].
  apply (sustained_failure_is_remediated default_cfg false
           [unhealthy_poll; healthy_poll] []
           [unhealthy_poll; unlucky_poll; unhealthy_poll]);
    [reflexivity | reflexivity | discriminate].
Defined.

(** ** What reaches the log and the channels *)

Lemma error_log_channel configured skip attempt prefix :
  is_error_log attempt = false →
  List.filter is_error_log
    (channel_events configured skip attempt prefix None) = [].
Proof.
  intros Ha. unfold channel_events. destruct configured; cbn; rewrite ?Ha;
    reflexivity.
Qed.

Lemma error_log_body cfg dry_run w n :
  calm w = true → List.filter is_error_log (body_events cfg dry_run w n) = [].
Proof.
  unfold calm. rewrite !andb_true_iff, !bool_decide_eq_true.
  intros ((((Hlist & Hpatch) & Hslack) & Hsmtp) & Hpd).
  unfold body_events.
  rewrite !List.filter_app, sleep_events_filter by reflexivity.
  rewrite app_nil_r.
  destruct (list_namespaced_pod_result w) as [pods|err]; [|discriminate].
  destruct (scan_pods (items pods)) as [|p broken]; [reflexivity|].
  cbn [app List.filter is_error_log]. case_bool_decide; [|reflexivity].
  unfold restart_events. rewrite Hpatch.
  destruct dry_run; [reflexivity|].
  unfold notify_events, slack_events, email_events, pagerduty_events.
  rewrite Hslack, Hsmtp, Hpd.
  cbn [app List.filter is_error_log patch_event].
  rewrite !List.filter_app, !error_log_channel by reflexivity. reflexivity.
Qed.

(** X16: the log gets an ERROR line only when a call to the outside
    raised: a run in which the pod listing, the patch and the deliveries
    all return logs no error, whatever the pods' health, the settings and
    the number of remediations. *)
Theorem no_error_line_without_a_raise cfg dry_run ws s :
  forallb calm ws = true →
  List.filter is_error_log (emitted s (state_after cfg dry_run ws s)) = [].
Proof.
  rewrite state_after_events. generalize (failure_count s) as n.
  induction ws as [|w ws IH]; intros n Hcalm; [reflexivity|].
  cbn [forallb] in Hcalm. apply andb_true_iff in Hcalm as [Hw Hws].
  cbn [loop_events]. rewrite List.filter_app, error_log_body, IH by assumption.
  reflexivity.
Qed.

Lemma no_error_line_without_a_raise_witness :
  forallb calm [unhealthy_poll; healthy_poll; unhealthy_poll] = true
  ∧ List.filter is_error_log
      (emitted (loop_entry [])
         (state_after alerting_cfg false
            [unhealthy_poll; healthy_poll; unhealthy_poll] (loop_entry [])))
    = [].
Proof.
  split; [reflexivity|].
  apply (no_error_line_without_a_raise alerting_cfg false
           [unhealthy_poll; healthy_poll; unhealthy_poll] (loop_entry [])).
  reflexivity.
Defined.

Lemma notifications_channel_list configured skip attempt prefix outcome :
  is_notification attempt = true →
  notifications (channel_events configured skip attempt prefix outcome)
  = if configured then [attempt] else [].
Proof.
  intros Ha. unfold notifications, channel_events.
  destruct configured, outcome; cbn; rewrite ?Ha; reflexivity.
Qed.

Lemma notifications_app t1 t2 :
  notifications (t1 ++ t2) = (notifications t1 ++ notifications t2)%list.
Proof. apply List.filter_app. Qed.

Lemma notify_events_alerts cfg w :
  Forall (remediation_alert cfg)
    (notifications
       (notify_events cfg ("Remediation triggered: " ++ restart_msg cfg) w)).
Proof.
  unfold notify_events, slack_events, email_events, pagerduty_events.
  change (notifications (?e :: ?l)) with (notifications ([e] ++ l)).
  rewrite !notifications_app, !notifications_channel_list by reflexivity.
  change (notifications [EvLog INFO ?m]) with (@nil Event).
  cbn [app]. repeat apply Forall_app_2.
  - destruct (SLACK_HOOK_URL cfg) as [url|] eqn:Hurl; cbn [truthy_opt];
      [|constructor].
    destruct (truthy_str url); constructor; [|constructor].
    left. exists url. split; [exact Hurl | reflexivity].
  - destruct (truthy_opt (EMAIL_FROM cfg) && truthy_opt (EMAIL_TO cfg)
              && truthy_str (SMTP_HOST cfg)); constructor; [|constructor].
    right. left. reflexivity.
  - destruct (PAGERDUTY_ROUTING_KEY cfg) as [key|] eqn:Hkey; cbn [truthy_opt];
      [|constructor].
    destruct (truthy_str key); constructor; [|constructor].
    right. right. exists key. split; [exact Hkey | reflexivity].
Qed.

Lemma notifications_body_alerts cfg dry_run w n :
  Forall (remediation_alert cfg) (notifications (body_events cfg dry_run w n)).
Proof.
  rewrite notifications_body.
  destruct (triggers (FAILURE_THRESHOLD cfg) n (classify w) && negb dry_run);
    [|constructor].
  destruct (patch_namespaced_deployment_result w); [constructor|].
  apply notify_events_alerts.
Qed.

(** X17: the only thing the script ever delivers to a channel is the
    remediation alert: every delivery of a run is the Slack post, the
    e-mail or the PagerDuty trigger carrying the text
    [Remediation triggered: [Self-Heal] Restarting deployment ... in
    namespace ...]; unhealthy polls below the threshold, healthy polls,
    failed inspections and failed restarts are reported in the log only. *)
Theorem only_the_remediation_alert_is_delivered cfg dry_run ws s :
  Forall (remediation_alert cfg)
    (notifications (emitted s (state_after cfg dry_run ws s))).
Proof.
  rewrite state_after_events. generalize (failure_count s) as n.
  induction ws as [|w ws IH]; intros n; [constructor|].
  cbn [loop_events]. rewrite notifications_app. apply Forall_app_2.
  - apply notifications_body_alerts.
  - apply IH.
Qed.
